(** * Trading core of standalone-polymarket-bot: guardrails, trade log,
      strategy, executor and redemption sweep

    The development embeds the TypeScript sources function by function and
    proves the properties the specification states about them.

    Conventions of the embedding.
    - A JavaScript [number] that carries money, a price or a share count is
      an exact rational ([Q]); results are compared with [==].  Rounding of
      IEEE-754 doubles, [NaN] and the infinities are outside the model
      (division by zero yields [0] in [Q]).  Counters and millisecond
      timestamps, which the code only ever fills with integers, are [Z].
    - The module-level [state] variable of guardrails.ts is passed explicitly:
      a function that mutates it returns the new state.
    - [Date.now()] is an argument [now] (milliseconds since the epoch); the
      [YYYY-MM-DD] prefix of [toISOString()] is the number of the UTC day.
    - Template strings keep their literal parts and record the interpolated
      numbers as such ([frag]), number printing is not modelled.
    - A [Map] is an association list in insertion order. *)

From Stdlib Require Import ZArith QArith Qabs Qround String Ascii List Bool Lia Lqa.
From Stdlib Require Import DecimalString.
From Stdlib Require DecimalZ DecimalPos.
Import ListNotations.

Set Implicit Arguments.

(** ** Numbers, strings and messages *)

Module Num.

Definition geb (a b : Q) : bool := Qle_bool b a.            (* a >= b *)
Definition leb (a b : Q) : bool := Qle_bool a b.            (* a <= b *)
Definition gtb (a b : Q) : bool := negb (Qle_bool a b).     (* a >  b *)
Definition ltb (a b : Q) : bool := negb (Qle_bool b a).     (* a <  b *)

(** [!x] on a number: only zero is falsy. *)
Definition falsy (a : Q) : bool := Qeq_bool a 0.

(** [Math.floor] *)
Definition floor (a : Q) : Q := inject_Z (Qfloor a).

Definition ofNat (n : nat) : Q := inject_Z (Z.of_nat n).

(** An optional number is present and has the given value. *)
Definition has (o : option Q) (q : Q) : Prop :=
  match o with
  | Some x => x == q
  | None => False
  end.

End Num.

(** A piece of a template string. *)
Inductive frag : Type :=
| Lit (s : string)               (* literal text and interpolated strings *)
| Num (q : Q)                    (* ${x} for a number x *)
| Fixed (digits : nat) (q : Q)   (* ${x.toFixed(digits)} *)
| Int (z : Z).                   (* ${n} for an integer n *)

Definition text : Type := list frag.

(** The double-quote character of a template. *)
Definition dquote : string := String (ascii_of_nat 34) EmptyString.

(** [needle] occurs in [hay]: String.prototype.includes. *)
Fixpoint includes (needle hay : string) : bool :=
  if String.prefix needle hay then true
  else match hay with
       | EmptyString => false
       | String _ rest => includes needle rest
       end.

(** [toLowerCase], on the ASCII letters. *)
Definition lowerAscii (c : ascii) : ascii :=
  let n := nat_of_ascii c in
  if Nat.leb 65 n && Nat.leb n 90 then ascii_of_nat (n + 32) else c.

Fixpoint toLowerCase (s : string) : string :=
  match s with
  | EmptyString => EmptyString
  | String c rest => String (lowerAscii c) (toLowerCase rest)
  end.

(** [a || b] on strings: the empty string and [undefined] are falsy. *)
Definition orElse (a : option string) (b : string) : string :=
  match a with
  | None => b
  | Some EmptyString => b
  | Some s => s
  end.

(** What the code reads from a caught exception. *)
Record JsError : Type := {
  errReason : option string;        (* err.reason *)
  errInnerMessage : option string;  (* err.error?.message *)
  errMessage : option string;       (* err.message *)
  errString : string                (* String(err) *)
}.

(** A call that either returns or throws. *)
Inductive Try (A : Type) : Type :=
| Ok (a : A)
| Threw (e : JsError).
Arguments Ok {A} a.
Arguments Threw {A} e.

(** ** Map<string, V> *)

Module JsMap.
Section WithValue.
Variable V : Type.

Definition t : Type := list (string * V).

Definition empty : t := [].

Fixpoint get (k : string) (m : t) : option V :=
  match m with
  | [] => None
  | (k', v) :: m' => if String.eqb k k' then Some v else get k m'
  end.

(** [set] keeps the position of an existing key and appends a new one. *)
Fixpoint set (k : string) (v : V) (m : t) : t :=
  match m with
  | [] => [(k, v)]
  | (k', v') :: m' =>
      if String.eqb k k' then (k, v) :: m' else (k', v') :: set k v m'
  end.

Definition delete (k : string) (m : t) : t :=
  filter (fun kv => negb (String.eqb k (fst kv))) m.

Definition values (m : t) : list V := map snd m.

Definition keys (m : t) : list string := map fst m.

End WithValue.
Arguments empty {V}.
Arguments get {V} k m.
Arguments set {V} k v m.
Arguments delete {V} k m.
Arguments values {V} m.
Arguments keys {V} m.
End JsMap.

(** ** config.ts *)

Module Config.

Record TraderConfig : Type := {
  privateKey : string;
  funderAddress : string;
  signatureType : Z;
  enabled : bool;
  dryRun : bool;
  maxOrderSize : Q;
  maxPositionSize : Q;
  maxDailyLoss : Q;
  maxTradesPerHour : Q;
  minEntryPrice : Q;
  entryWindowMinStart : Q;
  entryWindowMinEnd : Q;
  takeProfitPct : Q;
  tickIntervalSec : Q
}.

Definition MARKET_DURATION_SEC : Z := 900.

(** DEFAULT_CONFIG, with the two credentials left empty. *)
Definition DEFAULT_CONFIG : TraderConfig := {|
  privateKey := EmptyString; funderAddress := EmptyString; signatureType := 1;
  enabled := false; dryRun := true;
  maxOrderSize := 10; maxPositionSize := 50; maxDailyLoss := 25;
  maxTradesPerHour := 10; minEntryPrice := 60 # 100;
  entryWindowMinStart := 5; entryWindowMinEnd := 10;
  takeProfitPct := 80 # 100; tickIntervalSec := 30
|}.

End Config.

(** ** guardrails.ts *)

Module Guardrails.
Import Config.

Inductive OutcomeLabel : Type := Up | Down.

Record PositionRecord : Type := {
  conditionId : string;
  tokenId : string;
  outcome : OutcomeLabel;
  entryPrice : Q;
  size : Q;
  costBasis : Q;
  entryTime : Z;
  marketSlug : string;
  negRisk : bool
}.

Record GuardrailState : Type := {
  dailyPnl : Q;
  dailyTradeCount : Z;
  hourlyTrades : list Z;
  totalExposure : Q;
  openPositions : JsMap.t PositionRecord;
  killswitch : bool;
  lastResetDay : Z
}.

Definition utcDay (now : Z) : Z := (now / 86400000)%Z.

Definition createFreshState (now : Z) : GuardrailState := {|
  dailyPnl := 0;
  dailyTradeCount := 0;
  hourlyTrades := [];
  totalExposure := 0;
  openPositions := JsMap.empty;
  killswitch := false;
  lastResetDay := utcDay now
|}.

Definition maybeResetDaily (now : Z) (st : GuardrailState) : GuardrailState :=
  let today := utcDay now in
  if negb (Z.eqb today (lastResetDay st)) then
    {| dailyPnl := 0;
       dailyTradeCount := 0;
       hourlyTrades := [];
       totalExposure := totalExposure st;
       openPositions := openPositions st;
       killswitch := killswitch st;
       lastResetDay := today |}
  else st.

Definition pruneHourlyTrades (now : Z) (st : GuardrailState) : GuardrailState :=
  let oneHourAgo := (now - 3600000)%Z in
  {| dailyPnl := dailyPnl st;
     dailyTradeCount := dailyTradeCount st;
     hourlyTrades := filter (fun t => Z.gtb t oneHourAgo) (hourlyTrades st);
     totalExposure := totalExposure st;
     openPositions := openPositions st;
     killswitch := killswitch st;
     lastResetDay := lastResetDay st |}.

Record PreTradeCheck : Type := {
  allowed : bool;
  reason : option text
}.

Definition allow : PreTradeCheck := {| allowed := true; reason := None |}.
Definition deny (m : text) : PreTradeCheck :=
  {| allowed := false; reason := Some m |}.

Definition KILLSWITCH_REASON : text :=
  [Lit "KILLSWITCH active — trading halted"].

Definition checkPreTrade (now : Z) (config : TraderConfig) (orderSizeUSDC : Q)
    (st0 : GuardrailState) : PreTradeCheck * GuardrailState :=
  let st := pruneHourlyTrades now (maybeResetDaily now st0) in
  if killswitch st then
    (deny KILLSWITCH_REASON, st)
  else if negb (enabled config) then
    (deny [Lit "Trading is disabled (enabled=false)"], st)
  else if Num.gtb orderSizeUSDC (maxOrderSize config) then
    (deny [Lit "Order size $"; Num orderSizeUSDC; Lit " exceeds max $";
           Num (maxOrderSize config)], st)
  else if Num.gtb (totalExposure st + orderSizeUSDC) (maxPositionSize config) then
    (deny [Lit "Would exceed max position: current $"; Num (totalExposure st);
           Lit " + $"; Num orderSizeUSDC; Lit " > $";
           Num (maxPositionSize config)], st)
  else if Num.geb (Qabs (dailyPnl st)) (maxDailyLoss config)
          && Num.ltb (dailyPnl st) 0 then
    (deny [Lit "Daily loss limit hit: $"; Fixed 2 (Qabs (dailyPnl st));
           Lit " >= $"; Num (maxDailyLoss config)], st)
  else if Num.geb (Num.ofNat (length (hourlyTrades st))) (maxTradesPerHour config) then
    (deny [Lit "Hourly trade limit hit: "; Int (Z.of_nat (length (hourlyTrades st)));
           Lit " >= "; Num (maxTradesPerHour config)], st)
  else
    (allow, st).

Definition recordTrade (now : Z) (position : PositionRecord)
    (st : GuardrailState) : GuardrailState :=
  {| dailyPnl := dailyPnl st;
     dailyTradeCount := dailyTradeCount st + 1;
     hourlyTrades := hourlyTrades st ++ [now];
     totalExposure := totalExposure st + costBasis position;
     openPositions := JsMap.set (conditionId position) position (openPositions st);
     killswitch := killswitch st;
     lastResetDay := lastResetDay st |}.

Definition recordClose (cid : string) (proceeds : Q)
    (st : GuardrailState) : GuardrailState :=
  match JsMap.get cid (openPositions st) with
  | Some pos =>
      let pnl := proceeds - costBasis pos in
      let dailyPnl' := dailyPnl st + pnl in
      {| dailyPnl := dailyPnl';
         dailyTradeCount := dailyTradeCount st;
         hourlyTrades := hourlyTrades st;
         totalExposure := totalExposure st - costBasis pos;
         openPositions := JsMap.delete cid (openPositions st);
         killswitch :=
           if Num.ltb dailyPnl' 0 && Num.geb (Qabs dailyPnl') 25
           then true else killswitch st;
         lastResetDay := lastResetDay st |}
  | None => st
  end.

Definition setKillswitch (b : bool) (st : GuardrailState) : GuardrailState :=
  {| dailyPnl := dailyPnl st;
     dailyTradeCount := dailyTradeCount st;
     hourlyTrades := hourlyTrades st;
     totalExposure := totalExposure st;
     openPositions := openPositions st;
     killswitch := b;
     lastResetDay := lastResetDay st |}.

Definition activateKillswitch (why : string) (st : GuardrailState) : GuardrailState :=
  setKillswitch true st.

Definition resetKillswitch (st : GuardrailState) : GuardrailState :=
  setKillswitch false st.

(** The snapshot returned to callers: the state's fields and [positionsList]. *)
Record Snapshot : Type := {
  snapState : GuardrailState;
  positionsList : list PositionRecord
}.

Definition getGuardrailState (now : Z) (st0 : GuardrailState)
    : Snapshot * GuardrailState :=
  let st := pruneHourlyTrades now (maybeResetDaily now st0) in
  ({| snapState := st; positionsList := JsMap.values (openPositions st) |}, st).

Definition resetState (now : Z) (st : GuardrailState) : GuardrailState :=
  createFreshState now.

(** The exported operations that touch the state, as data. *)
Inductive GuardOp : Type :=
| OpCheckPreTrade (now : Z) (config : TraderConfig) (orderSizeUSDC : Q)
| OpRecordTrade (now : Z) (position : PositionRecord)
| OpRecordClose (cid : string) (proceeds : Q)
| OpActivateKillswitch (why : string)
| OpResetKillswitch
| OpGetGuardrailState (now : Z)
| OpResetState (now : Z).

Definition runOp (op : GuardOp) (st : GuardrailState) : GuardrailState :=
  match op with
  | OpCheckPreTrade now config cost => snd (checkPreTrade now config cost st)
  | OpRecordTrade now p => recordTrade now p st
  | OpRecordClose cid proceeds => recordClose cid proceeds st
  | OpActivateKillswitch why => activateKillswitch why st
  | OpResetKillswitch => resetKillswitch st
  | OpGetGuardrailState now => snd (getGuardrailState now st)
  | OpResetState now => resetState now st
  end.

Definition runOps (ops : list GuardOp) (st : GuardrailState) : GuardrailState :=
  fold_left (fun s op => runOp op s) ops st.





End Guardrails.

(** ** trade-log.ts : the append-only JSONL ledger *)

Module TradeLog.
Import Guardrails.

Record BuyEntry : Type := {
  buy_time : Z;
  buy_slug : string;
  buy_outcome : OutcomeLabel;
  buy_price : Q;
  buy_size : Q;
  buy_cost : Q;
  buy_orderId : string
}.

Record ResolutionEntry : Type := {
  res_time : Z;
  res_slug : string;
  resolved : OutcomeLabel
}.

Inductive Entry : Type :=
| Buy (b : BuyEntry)
| Resolution (r : ResolutionEntry).

(** The [type] and [slug] properties of the object a line parses to. *)
Definition entryType (e : Entry) : string :=
  match e with Buy _ => "buy" | Resolution _ => "resolution" end.

Definition entrySlug (e : Entry) : string :=
  match e with Buy b => buy_slug b | Resolution r => res_slug r end.

(** One line of trades.jsonl as [hasEntry] sees it after [split]. *)
Inductive Line : Type :=
| Blank                (* the empty string: skipped *)
| Unparsable           (* JSON.parse, or the property access, throws *)
| Foreign              (* parses to a value that is no entry *)
| Parsed (e : Entry).  (* what logBuy and logResolution write *)

(** The file: [None] while it does not exist.  Lines are newline
    terminated, as everything the program appends is. *)
Definition LogFile : Type := option (list Line).

Definition appendLine (l : Line) (f : LogFile) : LogFile :=
  match f with
  | None => Some [l]
  | Some ls => Some (ls ++ [l])
  end.

Definition logBuy (now : Z) (slug : string) (outcome : OutcomeLabel)
    (price size cost : Q) (orderId : string) (f : LogFile) : LogFile :=
  appendLine
    (Parsed (Buy {| buy_time := now; buy_slug := slug; buy_outcome := outcome;
                    buy_price := price; buy_size := size; buy_cost := cost;
                    buy_orderId := orderId |})) f.

Definition logResolution (now : Z) (slug : string) (winner : OutcomeLabel)
    (f : LogFile) : LogFile :=
  appendLine
    (Parsed (Resolution {| res_time := now; res_slug := slug;
                           resolved := winner |})) f.

(** The loop of [hasEntry], from the last line to the first; the argument
    is the reversed list of lines.  An exception leaves the loop through
    the empty [catch] and the function returns [false]. *)
Fixpoint scanBack (type slug : string) (revLines : list Line) : bool :=
  match revLines with
  | [] => false
  | Blank :: rest => scanBack type slug rest
  | Unparsable :: _ => false
  | Foreign :: rest => scanBack type slug rest
  | Parsed e :: rest =>
      if String.eqb (entryType e) type && String.eqb (entrySlug e) slug
      then true
      else scanBack type slug rest
  end.

Definition hasEntry (type slug : string) (f : LogFile) : bool :=
  match f with
  | None => false
  | Some lines => scanBack type slug (rev lines)
  end.

Definition hasBoughtSlug (slug : string) (f : LogFile) : bool :=
  hasEntry "buy" slug f.

Definition hasResolution (slug : string) (f : LogFile) : bool :=
  hasEntry "resolution" slug f.

(** The lines of a file, none when it does not exist. *)
Definition linesOf (f : LogFile) : list Line :=
  match f with None => [] | Some ls => ls end.

Definition parses (l : Line) : bool :=
  match l with Unparsable => false | _ => true end.

(** A ledger every line of which parses, as every line the program appends
    does. *)
Definition readable (f : LogFile) : bool := forallb parses (linesOf f).

Definition isBuyFor (slug : string) (l : Line) : bool :=
  match l with
  | Parsed (Buy b) => String.eqb (buy_slug b) slug
  | _ => false
  end.


Definition containsBuy (slug : string) (f : LogFile) : bool :=
  existsb (isBuyFor slug) (linesOf f).


(** The test of [hasEntry] on one line. *)
Definition matches (type slug : string) (l : Line) : bool :=
  match l with
  | Parsed e => String.eqb (entryType e) type && String.eqb (entrySlug e) slug
  | _ => false
  end.

End TradeLog.

(** ** market-discovery.ts *)

Module MarketDiscovery.
Import Guardrails.

Record MarketOutcome : Type := {
  tokenId : string;
  outcome : OutcomeLabel;
  price : Q
}.

Record ActiveMarket : Type := {
  conditionId : string;
  slug : string;
  question : string;
  startTime : Z;
  endTime : Z;
  secondsRemaining : Z;
  minutesRemaining : Q;
  outcomes : list MarketOutcome;
  tickSize : string;
  negRisk : bool;
  closed : bool
}.

Definition getCurrentSlotStart (nowSec : Z) : Z :=
  ((nowSec / Config.MARKET_DURATION_SEC) * Config.MARKET_DURATION_SEC)%Z.

(** Decimal text of an integer, as a template string prints it. *)
Definition decimal (z : Z) : string :=
  NilZero.string_of_int (Z.to_int z).

Definition buildMarketSlug (slotStartSec : Z) : string :=
  ("btc-updown-15m-" ++ decimal slotStartSec)%string.

(** [reduce] without an initial value: the first element starts as [best]. *)
Definition getLeadingOutcome (market : ActiveMarket) : option MarketOutcome :=
  match outcomes market with
  | [] => None
  | first :: rest =>
      Some (fold_left
              (fun best o => if Num.gtb (price o) (price best) then o else best)
              rest first)
  end.

Definition isInEntryWindow (market : ActiveMarket) (minStart minEnd : Q) : bool :=
  Num.geb (minutesRemaining market) minStart
  && Num.leb (minutesRemaining market) minEnd.

End MarketDiscovery.

(** ** strategy.ts, take-profit revision *)

Module Strategy.
Import Config.
Import MarketDiscovery.

Inductive Signal : Type := BUY | SELL | HOLD | WAIT.

Record TradeSignal : Type := {
  signal : Signal;
  outcome : option MarketOutcome;
  reason : text;
  suggestedSize : option Q;
  suggestedPrice : option Q;
  unrealizedGainPct : option Q
}.

Definition plain (s : Signal) (why : text) : TradeSignal :=
  {| signal := s; outcome := None; reason := why;
     suggestedSize := None; suggestedPrice := None;
     unrealizedGainPct := None |}.

Definition labelText (l : Guardrails.OutcomeLabel) : string :=
  match l with Guardrails.Up => "Up" | Guardrails.Down => "Down" end.

Definition evaluateEntry (market : ActiveMarket) (config : TraderConfig)
    : TradeSignal :=
  if closed market then
    plain WAIT [Lit "Market is closed"]
  else if negb (isInEntryWindow market (entryWindowMinStart config)
                  (entryWindowMinEnd config)) then
    if Num.gtb (minutesRemaining market) (entryWindowMinEnd config) then
      plain WAIT [Lit "Too early: "; Fixed 1 (minutesRemaining market);
                  Lit "min remaining (window: ";
                  Num (entryWindowMinStart config); Lit "-";
                  Num (entryWindowMinEnd config); Lit "min)"]
    else
      plain WAIT [Lit "Too late: "; Fixed 1 (minutesRemaining market);
                  Lit "min remaining (window starts at ";
                  Num (entryWindowMinStart config); Lit "min)"]
  else
    match getLeadingOutcome market with
    | None => plain WAIT [Lit "No outcomes available"]
    | Some leader =>
        if Num.ltb (price leader) (minEntryPrice config) then
          plain WAIT [Lit "Leading outcome "; Lit dquote;
                      Lit (labelText (MarketDiscovery.outcome leader));
                      Lit dquote; Lit " at $"; Fixed 2 (price leader);
                      Lit " < min entry $"; Num (minEntryPrice config)]
        else
          let pricePerShare := price leader in
          let maxShares := Num.floor (maxOrderSize config / pricePerShare) in
          if Num.leb maxShares 0 then
            plain WAIT [Lit "Order size too small for current price"]
          else
            {| signal := BUY;
               outcome := Some leader;
               reason := [Lit "Entry signal: "; Lit dquote;
                          Lit (labelText (MarketDiscovery.outcome leader));
                          Lit dquote; Lit " at $"; Fixed 2 pricePerShare; Lit " with ";
                          Fixed 1 (minutesRemaining market);
                          Lit "min remaining"];
               suggestedSize := Some maxShares;
               suggestedPrice := Some pricePerShare;
               unrealizedGainPct := None |}
    end.

Definition evaluateExit (market : ActiveMarket)
    (position : Guardrails.PositionRecord) (config : TraderConfig)
    : TradeSignal :=
  match find (fun o => String.eqb (tokenId o) (Guardrails.tokenId position))
             (outcomes market) with
  | None => plain HOLD [Lit "Can't find current price for held position"]
  | Some held =>
      let currentValue := price held * Guardrails.size position in
      let gain := (currentValue - Guardrails.costBasis position)
                  / Guardrails.costBasis position in
      if Num.geb gain (takeProfitPct config) then
        {| signal := SELL;
           outcome := Some held;
           reason := [Lit "Take profit: "; Fixed 1 (gain * 100);
                      Lit "% gain >= "; Fixed 0 (takeProfitPct config * 100);
                      Lit "% target"];
           suggestedSize := Some (Guardrails.size position);
           suggestedPrice := Some (price held);
           unrealizedGainPct := Some gain |}
      else if Num.ltb (minutesRemaining market) 1 && Num.gtb gain (1 # 10) then
        {| signal := SELL;
           outcome := Some held;
           reason := [Lit "Near-expiry profit lock: "; Fixed 1 (gain * 100);
                      Lit "% gain with <1min remaining"];
           suggestedSize := Some (Guardrails.size position);
           suggestedPrice := Some (price held);
           unrealizedGainPct := Some gain |}
      else
        {| signal := HOLD;
           outcome := None;
           reason := [Lit "Holding "; Lit dquote;
                      Lit (labelText (Guardrails.outcome position));
                      Lit dquote; Lit " at "; Fixed 1 (gain * 100);
                      Lit "% unrealized (target: ";
                      Fixed 0 (takeProfitPct config * 100); Lit "%)"];
           suggestedSize := None;
           suggestedPrice := None;
           unrealizedGainPct := Some gain |}
  end.

Definition evaluateMarket (now : Z) (market : ActiveMarket)
    (config : TraderConfig) (st : Guardrails.GuardrailState)
    : TradeSignal * Guardrails.GuardrailState :=
  let '(guardrails, st') := Guardrails.getGuardrailState now st in
  match find (fun p => String.eqb (Guardrails.conditionId p) (conditionId market))
             (Guardrails.positionsList guardrails) with
  | Some existingPosition => (evaluateExit market existingPosition config, st')
  | None => (evaluateEntry market config, st')
  end.

End Strategy.

(** ** strategy.ts, hold-to-resolution revision

    The revision of [evaluateExit] that never sells; it reads no
    take-profit fraction. *)

Module StrategyHoldOnly.
Import MarketDiscovery.
Import Strategy.

Definition evaluateExit (market : ActiveMarket)
    (position : Guardrails.PositionRecord) (_config : Config.TraderConfig)
    : TradeSignal :=
  match find (fun o => String.eqb (tokenId o) (Guardrails.tokenId position))
             (outcomes market) with
  | None => plain HOLD [Lit "Can't find current price for held position"]
  | Some held =>
      let currentValue := price held * Guardrails.size position in
      let gain := (currentValue - Guardrails.costBasis position)
                  / Guardrails.costBasis position in
      {| signal := HOLD;
         outcome := None;
         reason := [Lit "Holding "; Lit dquote;
                    Lit (labelText (Guardrails.outcome position));
                    Lit dquote; Lit " at "; Fixed 1 (gain * 100);
                    Lit "% unrealized — waiting for resolution"];
         suggestedSize := None;
         suggestedPrice := None;
         unrealizedGainPct := Some gain |}
  end.

End StrategyHoldOnly.

(** ** executor.ts, revision that consults the ledger *)

Module Executor.
Import MarketDiscovery.
Import Strategy.

Definition VALID_TICK_SIZES : list string := ["0.1"; "0.01"; "0.001"; "0.0001"]%string.

Definition toTickSize (raw : string) : string :=
  if existsb (String.eqb raw) VALID_TICK_SIZES then raw else "0.01"%string.

Record ExecutionResult : Type := {
  success : bool;
  orderId : option string;
  message : text;
  dryRun : bool
}.

Definition failure (m : text) : ExecutionResult :=
  {| success := false; orderId := None; message := m; dryRun := false |}.

(** The order handed to [createAndPostOrder]; the order type is always GTC. *)
Inductive Side : Type := SideBUY | SideSELL.

Record OrderRequest : Type := {
  tokenID : string;
  orderPrice : Q;
  orderSize : Q;
  side : Side;
  orderTickSize : string;
  orderNegRisk : bool
}.

Record OrderResponse : Type := {
  orderID : option string;
  status : option string
}.

(** The CLOB client and the clock, as the function meets them. *)
Record Env : Type := {
  isClientReady : bool;
  createAndPostOrder : OrderRequest -> Try (option OrderResponse);
  timeOfCheck : Z;     (* Date.now() when the guardrails are consulted *)
  timeOfRecord : Z     (* Date.now() when the trade is recorded *)
}.

(** Everything the executor can change. *)
Record World : Type := {
  guard : Guardrails.GuardrailState;
  ledger : TradeLog.LogFile;
  orders : list OrderRequest;      (* orders handed to createAndPostOrder *)
  logs : list text                 (* lines passed to [logger] *)
}.

Definition positionOf (env : Env) (market : ActiveMarket) (o : MarketOutcome)
    (price size cost : Q) : Guardrails.PositionRecord :=
  {| Guardrails.conditionId := conditionId market;
     Guardrails.tokenId := tokenId o;
     Guardrails.outcome := MarketDiscovery.outcome o;
     Guardrails.entryPrice := price;
     Guardrails.size := size;
     Guardrails.costBasis := cost;
     Guardrails.entryTime := timeOfRecord env;
     Guardrails.marketSlug := slug market;
     Guardrails.negRisk := negRisk market |}.

(** [recordTrade] followed by [logBuy], as both success paths do. *)
Definition book (env : Env) (market : ActiveMarket) (o : MarketOutcome)
    (price size cost : Q) (oid : string) (w : World) : World :=
  {| guard := Guardrails.recordTrade (timeOfRecord env)
                (positionOf env market o price size cost) (guard w);
     ledger := TradeLog.logBuy (timeOfRecord env) (slug market)
                 (MarketDiscovery.outcome o) price size cost oid (ledger w);
     orders := orders w;
     logs := logs w |}.

Definition addLog (m : text) (w : World) : World :=
  {| guard := guard w; ledger := ledger w; orders := orders w;
     logs := logs w ++ [m] |}.

Definition withGuard (g : Guardrails.GuardrailState) (w : World) : World :=
  {| guard := g; ledger := ledger w; orders := orders w; logs := logs w |}.

Definition submit (r : OrderRequest) (w : World) : World :=
  {| guard := guard w; ledger := ledger w; orders := orders w ++ [r];
     logs := logs w |}.

Definition thrownText (e : JsError) : string :=
  orElse (errMessage e) (errString e).

Definition executeBuy (env : Env) (sig : TradeSignal) (market : ActiveMarket)
    (config : Config.TraderConfig) (w : World) : ExecutionResult * World :=
  let invalid := failure [Lit "Invalid buy signal: missing outcome/size/price"] in
  match Strategy.outcome sig, suggestedSize sig, suggestedPrice sig with
  | Some o, Some size, Some price =>
    if Num.falsy size || Num.falsy price then (invalid, w) else
    let orderCost := size * price in
    if TradeLog.hasBoughtSlug (slug market) (ledger w) then
      (failure [Lit "Already bought in this block ("; Lit (slug market); Lit ")"], w)
    else
    let '(check, g) :=
      Guardrails.checkPreTrade (timeOfCheck env) config orderCost (guard w) in
    let w := withGuard g w in
    if negb (Guardrails.allowed check) then
      (failure (Lit "Guardrail blocked: " ::
                match Guardrails.reason check with Some m => m | None => [] end), w)
    else if Config.dryRun config then
      let msg := [Lit "[DRY RUN] Would BUY "; Num size; Lit " shares of ";
                  Lit dquote; Lit (labelText (MarketDiscovery.outcome o));
                  Lit dquote; Lit " @ $"; Fixed 2 price; Lit " ($";
                  Fixed 2 orderCost; Lit " total) — "] ++ Strategy.reason sig in
      let w := addLog msg w in
      let w := book env market o price size orderCost "dry-run" w in
      ({| success := true; orderId := None; message := msg; dryRun := true |}, w)
    else if negb (isClientReady env) then
      (failure [Lit "Client not initialized"], w)
    else
      let req := {| tokenID := tokenId o; orderPrice := price; orderSize := size;
                    side := SideBUY; orderTickSize := toTickSize (tickSize market);
                    orderNegRisk := negRisk market |} in
      let w := submit req w in
      match createAndPostOrder env req with
      | Threw err =>
          (failure [Lit "Buy failed: "; Lit (thrownText err)], w)
      | Ok response =>
          let oid := orElse (match response with Some r => orderID r | None => None end)
                            "unknown" in
          let st := orElse (match response with Some r => status r | None => None end)
                           "unknown" in
          if String.eqb st "matched" || String.eqb st "live" then
            let w := book env market o price size orderCost oid w in
            let msg := [Lit "BUY FILLED: "; Num size; Lit " shares of ";
                        Lit dquote; Lit (labelText (MarketDiscovery.outcome o));
                        Lit dquote; Lit " @ $"; Fixed 2 price; Lit " ($";
                        Fixed 2 orderCost; Lit ") — Order "; Lit oid] in
            ({| success := true; orderId := Some oid; message := msg;
                dryRun := false |}, addLog msg w)
          else
            (failure [Lit "Order not filled. Status: "; Lit st; Lit ", ID: ";
                      Lit oid], w)
      end
  | _, _, _ => (invalid, w)
  end.

(** The signal passes the first test of [executeBuy]. *)
Definition validBuySignal (sig : TradeSignal) : bool :=
  match Strategy.outcome sig, suggestedSize sig, suggestedPrice sig with
  | Some _, Some size, Some price => negb (Num.falsy size || Num.falsy price)
  | _, _, _ => false
  end.

Definition ALREADY_BOUGHT (market : ActiveMarket) : text :=
  [Lit "Already bought in this block ("; Lit (slug market); Lit ")"].

(** A restart of the process: the guardrail state is created anew, the
    ledger file is the one left on disk. *)
Definition restart (now : Z) (w : World) : World :=
  withGuard (Guardrails.createFreshState now) w.

End Executor.

(** ** redeemer.ts *)

Module Redeemer.
Import Guardrails.

(** The market object of the Gamma API, as far as the sweep reads it. *)
Record RawMarket : Type := {
  (* market.conditionId || market.condition_id, [None] when both are falsy *)
  rawConditionId : option string;
  (* the labels of [outcomes] and [parseFloat] of each of [outcomePrices]
     ([None] for NaN); [None] when decoding either of them throws *)
  rawOutcomes : option (list string * list (option Q));
  (* [clobTokenIds], [None] when JSON.parse throws *)
  clobTokenIds : option (list string)
}.

Definition isOne (p : option Q) : bool :=
  match p with
  | Some q => Qeq_bool q 1
  | None => false
  end.

Definition labelOf (raw : string) : OutcomeLabel :=
  if includes "up" (toLowerCase raw) then Up else Down.

(** The loop of [getWinner] over the prices, the labels kept in step. *)
Fixpoint winnerScan (labels : list string) (prices : list (option Q))
    : option OutcomeLabel :=
  match prices with
  | [] => None
  | p :: ps =>
      if isOne p then Some (labelOf (hd EmptyString labels))
      else winnerScan (tl labels) ps
  end.

Definition getWinner (market : RawMarket) : option OutcomeLabel :=
  match rawOutcomes market with
  | None => None
  | Some (labels, prices) => winnerScan labels prices
  end.

Record Receipt : Type := {
  receiptStatus : Z;
  blockNumber : Z
}.

(** A submitted transaction: its hash, what each call of [tx.wait()]
    does ([None]: it throws) and what the direct receipt poll returns. *)
Record TxResponse : Type := {
  hash : string;
  wait : nat -> option Receipt;
  getTransactionReceipt : Try (option Receipt)
}.

Inductive FetchResult : Type :=
| FetchThrew                    (* fetch or res.json() throws *)
| FetchNotOk                    (* !res.ok *)
| FetchEmpty                    (* not an array, or an empty one *)
| FetchOk (market : RawMarket).

(** What the network answers during one sweep.  Windows are numbered as
    the loop counts them (1..20), tokens by their place in the window. *)
Record SweepEnv : Type := {
  connect : option JsError;               (* [Some]: the provider throws *)
  getBalance : Try Z;                     (* MATIC of the signer, in wei *)
  startMs : Z;                            (* Date.now() at the start *)
  timeAt : nat -> Z;                      (* the clock at window i *)
  fetchMarket : nat -> FetchResult;
  balanceOf : nat -> nat -> option Z;     (* [None]: the call throws *)
  proxy : nat -> nat -> Try TxResponse    (* encoding and sending the call *)
}.

Inductive Event : Type :=
| EvLog (m : text)
| EvSleep (ms : Z)
| EvFetch (slug : string)
| EvBalanceOf (owner tokenId : string)
| EvRedeem (slug conditionId tokenId : string)   (* a redemption attempt *)
| EvWait (txHash : string)
| EvPoll (txHash : string).

(** The running state of a sweep. *)
Record Run : Type := {
  ledger : TradeLog.LogFile;
  trace : list Event;
  redeemedCount : nat
}.

Definition emit (evs : list Event) (r : Run) : Run :=
  {| ledger := ledger r; trace := trace r ++ evs;
     redeemedCount := redeemedCount r |}.

Definition countRedeemed (r : Run) : Run :=
  {| ledger := ledger r; trace := trace r;
     redeemedCount := S (redeemedCount r) |}.

Definition appendResolution (now : Z) (slug : string) (winner : OutcomeLabel)
    (r : Run) : Run :=
  {| ledger := TradeLog.logResolution now slug winner (ledger r);
     trace := trace r; redeemedCount := redeemedCount r |}.

(** Control after a loop body: go on, or leave the whole function. *)
Inductive Flow : Type :=
| Continue (r : Run)
| Return (r : Run).

Definition runOf (f : Flow) : Run :=
  match f with
  | Continue r => r
  | Return r => r
  end.

(** The three guarded calls of [tx.wait()]. *)
Fixpoint waitAttempts (tx : TxResponse) (attempt left : nat) (r : Run)
    : option Receipt * Run :=
  match left with
  | O => (None, r)
  | S left' =>
      let r := emit [EvWait (hash tx)] r in
      match wait tx attempt with
      | Some receipt => (Some receipt, r)
      | None =>
          waitAttempts tx (S attempt) left'
            (emit [EvLog [Lit "[REDEEM] Waiting for confirmation (attempt ";
                          Int (Z.of_nat attempt + 2); Lit "/4)..."];
                   EvSleep 5000] r)
      end
  end.

Definition waitForTx (tx : TxResponse) (r : Run) : option Receipt * Run :=
  match waitAttempts tx 0 3 r with
  | (Some receipt, r) => (Some receipt, r)
  | (None, r) =>
      let r := emit [EvSleep 10000; EvPoll (hash tx)] r in
      match getTransactionReceipt tx with
      | Ok (Some receipt) =>
          if negb (Z.eqb (blockNumber receipt) 0) then (Some receipt, r)
          else (None, r)
      | Ok None => (None, r)
      | Threw _ => (None, r)
      end
  end.

(** err.reason || err.error?.message || err.message || String(err) *)
Definition recognizedReason (err : JsError) : string :=
  orElse (errReason err)
    (orElse (errInnerMessage err) (orElse (errMessage err) (errString err))).

Definition OUT_OF_GAS : text := [Lit "[REDEEM] Out of MATIC for gas — stopping sweep"].

Definition failedOn (slug reason : string) : text :=
  [Lit "[REDEEM] Failed on "; Lit slug; Lit ": "; Lit reason].

(** formatUnits(bal, 6) *)
Definition sharesOf (bal : Z) : Q := inject_Z bal / inject_Z 1000000.

Definition foundText (slug cid : string) (bal : Z) : text :=
  [Lit "[REDEEM] Found "; Num (sharesOf bal); Lit " shares on "; Lit slug;
   Lit " (condition: "; Lit (String.substring 0 10 cid); Lit "...)"].

(** The body of [if (bal.gt(0))] for the token at place [j] of window [i]. *)
Definition redeemToken (env : SweepEnv) (i j : nat) (slug cid tokenId : string)
    (bal : Z) (r : Run) : Flow :=
  let shares := sharesOf bal in
  let r := emit [EvLog (foundText slug cid bal); EvSleep 3000;
                 EvRedeem slug cid tokenId] r in
  match proxy env i j with
  | Threw err =>
      let reason := recognizedReason err in
      if includes "insufficient funds" reason then
        Return (emit [EvLog OUT_OF_GAS] r)
      else
        Continue (emit [EvLog (failedOn slug reason); EvSleep 5000] r)
  | Ok tx =>
      let r := emit [EvLog [Lit "[REDEEM] Tx submitted: "; Lit (hash tx)]] r in
      let '(receipt, r) := waitForTx tx r in
      let r :=
        match receipt with
        | Some rc =>
            if Z.eqb (receiptStatus rc) 1 then
              countRedeemed
                (emit [EvLog [Lit "[REDEEM] Redeemed "; Num shares;
                              Lit " shares from "; Lit slug; Lit " — block ";
                              Int (blockNumber rc)]] r)
            else if Z.eqb (receiptStatus rc) 0 then
              emit [EvLog [Lit "[REDEEM] Tx reverted on "; Lit slug;
                           Lit " — market may not be resolved yet"]] r
            else
              countRedeemed
                (emit [EvLog [Lit "[REDEEM] Tx sent for "; Lit slug; Lit " (";
                              Lit (hash tx);
                              Lit ") — receipt unavailable due to RPC limits, will verify next sweep"]] r)
        | None =>
            countRedeemed
              (emit [EvLog [Lit "[REDEEM] Tx sent for "; Lit slug; Lit " (";
                            Lit (hash tx);
                            Lit ") — receipt unavailable due to RPC limits, will verify next sweep"]] r)
        end in
      Continue (emit [EvSleep 5000] r)
  end.

(** [for (const tokenId of tokenIds)], from place [j] on. *)
Fixpoint sweepTokens (env : SweepEnv) (funder : string) (i j : nat)
    (slug cid : string) (tokenIds : list string) (r : Run) : Flow :=
  match tokenIds with
  | [] => Continue r
  | tokenId :: rest =>
      let r := emit [EvBalanceOf funder tokenId] r in
      match balanceOf env i j with
      | None => sweepTokens env funder i (S j) slug cid rest (emit [EvSleep 5000] r)
      | Some bal =>
          if Z.gtb bal 0 then
            match redeemToken env i j slug cid tokenId bal r with
            | Return r' => Return r'
            | Continue r' => sweepTokens env funder i (S j) slug cid rest r'
            end
          else sweepTokens env funder i (S j) slug cid rest r
      end
  end.

(** The state in which a sweep starts. *)
Definition startOf (log : TradeLog.LogFile) : Run :=
  {| ledger := log; trace := []; redeemedCount := 0 |}.

Definition slugOfWindow (env : SweepEnv) (i : nat) : string :=
  let nowSec := (startMs env / 1000)%Z in
  let currentSlotStart :=
    ((nowSec / Config.MARKET_DURATION_SEC) * Config.MARKET_DURATION_SEC)%Z in
  MarketDiscovery.buildMarketSlug
    (currentSlotStart - Z.of_nat i * Config.MARKET_DURATION_SEC)%Z.

(** The resolution bookkeeping of one window. *)
Definition noteResolution (env : SweepEnv) (i : nat) (slug : string)
    (market : RawMarket) (r : Run) : Run :=
  match getWinner market with
  | Some winner =>
      if negb (TradeLog.hasResolution slug (ledger r)) then
        emit [EvLog [Lit "[REDEEM] Resolved: "; Lit slug; Lit " → ";
                     Lit (Strategy.labelText winner)]]
          (appendResolution (timeAt env i) slug winner r)
      else r
  | None => r
  end.

(** The body of the loop over the market slots, for window [i]. *)
Definition sweepWindow (env : SweepEnv) (funder : string) (i : nat) (r : Run)
    : Flow :=
  let slug := slugOfWindow env i in
  let r := emit [EvFetch slug] r in
  match fetchMarket env i with
  | FetchThrew | FetchNotOk | FetchEmpty => Continue r
  | FetchOk market =>
      match rawConditionId market with
      | None => Continue r
      | Some cid =>
          let r := noteResolution env i slug market r in
          match clobTokenIds market with
          | None => Continue r
          | Some tokenIds =>
              sweepTokens env funder i 0 slug cid tokenIds
                (emit [EvSleep 2000] r)
          end
      end
  end.

Fixpoint sweepWindows (env : SweepEnv) (funder : string) (windows : list nat)
    (r : Run) : Flow :=
  match windows with
  | [] => Continue r
  | i :: rest =>
      match sweepWindow env funder i r with
      | Return r' => Return r'
      | Continue r' => sweepWindows env funder rest r'
      end
  end.

Definition MIN_GAS_WEI : Z := 1000000000000000.   (* parseEther("0.001") *)

Definition errText (e : JsError) : string :=
  match errMessage e with Some s => s | None => "undefined" end.

Definition runRedemptionSweep (env : SweepEnv) (funderAddress : string)
    (log : TradeLog.LogFile) : Run :=
  let r := startOf log in
  match connect env with
  | Some err =>
      emit [EvLog [Lit "[REDEEM] Failed to connect to Polygon RPC: ";
                   Lit (errText err)]] r
  | None =>
      match getBalance env with
      | Threw err =>
          emit [EvLog [Lit "[REDEEM] RPC error checking balance: ";
                       Lit (errText err)]] r
      | Ok maticBal =>
          if Z.ltb maticBal MIN_GAS_WEI then
            emit [EvLog [Lit "[REDEEM] Skipping — EOA has insufficient MATIC for gas (";
                         Num (inject_Z maticBal / inject_Z (10 ^ 18)); Lit ")"]] r
          else
            match sweepWindows env funderAddress (seq 1 20) r with
            | Return r' => r'
            | Continue r' =>
                if Nat.eqb (redeemedCount r') 0 then
                  emit [EvLog [Lit "[REDEEM] Sweep complete — no unredeemed tokens found"]] r'
                else
                  emit [EvLog [Lit "[REDEEM] Sweep complete — redeemed ";
                               Int (Z.of_nat (redeemedCount r'));
                               Lit " position(s)"]] r'
            end
      end
  end.

(** Everything that writes the ledger: a sweep, or a buy logged by the
    tick driver between two sweeps. *)
Inductive LedgerStep : Type :=
| StepSweep (env : SweepEnv) (funderAddress : string)
| StepLogBuy (now : Z) (slug : string) (outcome : OutcomeLabel)
    (price size cost : Q) (orderId : string).

Definition runStep (s : LedgerStep) (log : TradeLog.LogFile) : TradeLog.LogFile :=
  match s with
  | StepSweep env funder => ledger (runRedemptionSweep env funder log)
  | StepLogBuy now slug o price size cost oid =>
      TradeLog.logBuy now slug o price size cost oid log
  end.

Definition runSteps (steps : list LedgerStep) (log : TradeLog.LogFile)
    : TradeLog.LogFile :=
  fold_left (fun l s => runStep s l) steps log.

(** Some price of the market reads as exactly 1. *)
Definition decodable (market : RawMarket) : Prop :=
  exists labels prices p,
    rawOutcomes market = Some (labels, prices)
    /\ In (Some p) prices /\ p == 1.


End Redeemer.

(** ** Sample values, used to exercise the statements below *)

Module Samples.
Import Guardrails.

Definition position (cid : string) (cost : Q) : PositionRecord :=
  {| conditionId := cid; tokenId := "tok-up"; outcome := Up;
     entryPrice := 1 # 2; size := cost * 2; costBasis := cost;
     entryTime := 0; marketSlug := "btc-updown-15m-900"; negRisk := false |}.

(** A state with one open position, some loss, and the killswitch set. *)
Definition halted : GuardrailState :=
  {| dailyPnl := - (3); dailyTradeCount := 1; hourlyTrades := [1000%Z];
     totalExposure := 5;
     openPositions := [("0xabc"%string, position "0xabc" 5)];
     killswitch := true; lastResetDay := 0 |}.

Definition upOutcome : MarketDiscovery.MarketOutcome :=
  {| MarketDiscovery.tokenId := "tok-up"; MarketDiscovery.outcome := Up;
     MarketDiscovery.price := 62 # 100 |}.

Definition downOutcome : MarketDiscovery.MarketOutcome :=
  {| MarketDiscovery.tokenId := "tok-down"; MarketDiscovery.outcome := Down;
     MarketDiscovery.price := 38 # 100 |}.

(** The window that started at second 900, seen 9.6 minutes before its end. *)
Definition market : MarketDiscovery.ActiveMarket :=
  {| MarketDiscovery.conditionId := "0xabc";
     MarketDiscovery.slug := "btc-updown-15m-900";
     MarketDiscovery.question := "Bitcoin Up or Down";
     MarketDiscovery.startTime := 900; MarketDiscovery.endTime := 1800;
     MarketDiscovery.secondsRemaining := 576;
     MarketDiscovery.minutesRemaining := 96 # 10;
     MarketDiscovery.outcomes := [upOutcome; downOutcome];
     MarketDiscovery.tickSize := "0.01";
     MarketDiscovery.negRisk := false; MarketDiscovery.closed := false |}.

(** The same window late in its life, the held outcome at 0.95. *)
Definition lateMarket : MarketDiscovery.ActiveMarket :=
  {| MarketDiscovery.conditionId := "0xabc";
     MarketDiscovery.slug := "btc-updown-15m-900";
     MarketDiscovery.question := "Bitcoin Up or Down";
     MarketDiscovery.startTime := 900; MarketDiscovery.endTime := 1800;
     MarketDiscovery.secondsRemaining := 120;
     MarketDiscovery.minutesRemaining := 2;
     MarketDiscovery.outcomes :=
       [{| MarketDiscovery.tokenId := "tok-up"; MarketDiscovery.outcome := Up;
           MarketDiscovery.price := 95 # 100 |};
        {| MarketDiscovery.tokenId := "tok-down"; MarketDiscovery.outcome := Down;
           MarketDiscovery.price := 5 # 100 |}];
     MarketDiscovery.tickSize := "0.01";
     MarketDiscovery.negRisk := false; MarketDiscovery.closed := false |}.

Definition liveConfig : Config.TraderConfig :=
  {| Config.privateKey := "0xkey"; Config.funderAddress := "0xfunder";
     Config.signatureType := 1; Config.enabled := true; Config.dryRun := true;
     Config.maxOrderSize := 10; Config.maxPositionSize := 50;
     Config.maxDailyLoss := 25; Config.maxTradesPerHour := 10;
     Config.minEntryPrice := 60 # 100; Config.entryWindowMinStart := 5;
     Config.entryWindowMinEnd := 10; Config.takeProfitPct := 80 # 100;
     Config.tickIntervalSec := 30 |}.

Definition buySignal : Strategy.TradeSignal :=
  {| Strategy.signal := Strategy.BUY; Strategy.outcome := Some upOutcome;
     Strategy.reason := [Lit "Entry signal"];
     Strategy.suggestedSize := Some 16; Strategy.suggestedPrice := Some (62 # 100);
     Strategy.unrealizedGainPct := None |}.

(** A client that accepts every order. *)
Definition execEnv : Executor.Env :=
  {| Executor.isClientReady := true;
     Executor.createAndPostOrder := fun _ =>
       Ok (Some {| Executor.orderID := Some "order-1"%string;
                   Executor.status := Some "matched"%string |});
     Executor.timeOfCheck := 1224000; Executor.timeOfRecord := 1224500 |}.


Definition resolvedMarket : Redeemer.RawMarket :=
  {| Redeemer.rawConditionId := Some "0xabc"%string;
     Redeemer.rawOutcomes := Some (["Up"; "Down"]%string, [Some 1; Some 0]);
     Redeemer.clobTokenIds := Some ["tok-up"; "tok-down"]%string |}.

Definition confirmedTx : Redeemer.TxResponse :=
  {| Redeemer.hash := "0xhash";
     Redeemer.wait := fun _ =>
       Some {| Redeemer.receiptStatus := 1; Redeemer.blockNumber := 100 |};
     Redeemer.getTransactionReceipt := Ok None |}.

(** The error a provider raises when the signer cannot pay for gas. *)
Definition gasError : JsError :=
  {| errReason := None;
     errInnerMessage := Some "insufficient funds for gas * price + value"%string;
     errMessage := Some "processing response error"%string;
     errString := "Error: processing response error" |}.

Definition revertError : JsError :=
  {| errReason := Some "execution reverted"%string;
     errInnerMessage := None;
     errMessage := Some "call exception"%string;
     errString := "Error: call exception" |}.

(** A sweep started at second 2000000: the newest closed window is
    resolved and the wallet holds 5 shares of both of its tokens; the
    other windows are not listed.  [answer] is what sending a redemption
    does. *)
Definition sweepEnv (answer : Try Redeemer.TxResponse) : Redeemer.SweepEnv :=
  {| Redeemer.connect := None;
     Redeemer.getBalance := Ok (10 ^ 18)%Z;
     Redeemer.startMs := 2000000000;
     Redeemer.timeAt := fun i => (2000000000 + 10000 * Z.of_nat i)%Z;
     Redeemer.fetchMarket := fun i =>
       if Nat.eqb i 1 then Redeemer.FetchOk resolvedMarket else Redeemer.FetchEmpty;
     Redeemer.balanceOf := fun _ _ => Some 5000000%Z;
     Redeemer.proxy := fun _ _ => answer |}.

Definition twoSweeps : list Redeemer.LedgerStep :=
  [Redeemer.StepSweep (sweepEnv (Ok confirmedTx)) "0xfunder";
   Redeemer.StepLogBuy 2000100000 "btc-updown-15m-1999800" Up (62 # 100) 16
     (992 # 100) "dry-run";
   Redeemer.StepSweep (sweepEnv (Ok confirmedTx)) "0xfunder"].

End Samples.

(** ** guardrails.ts: what the later statements speak about *)

Module GuardrailsMore.
Import Guardrails.

(** The housekeeping [checkPreTrade] and [getGuardrailState] start with. *)
Definition refresh (now : Z) (st : GuardrailState) : GuardrailState :=
  pruneHourlyTrades now (maybeResetDaily now st).

(** The keys of the map are unique and each is the [conditionId] of the
    position stored under it. *)
Definition Keyed (st : GuardrailState) : Prop :=
  NoDup (JsMap.keys (openPositions st))
  /\ Forall (fun kv => conditionId (snd kv) = fst kv) (openPositions st).



End GuardrailsMore.

(** ** executor.ts: [executeSell]

    The function of the revision that sells; it shares the result type,
    the client and the world with [executeBuy]. *)

Module ExecutorSell.
Import MarketDiscovery.
Import Strategy.
Import Executor.

Definition executeSell (env : Env) (sig : TradeSignal) (market : ActiveMarket)
    (config : Config.TraderConfig) (w : World) : ExecutionResult * World :=
  let invalid := failure [Lit "Invalid sell signal: missing outcome/size/price"] in
  match Strategy.outcome sig, suggestedSize sig, suggestedPrice sig with
  | Some o, Some size, Some price =>
    if Num.falsy size || Num.falsy price then (invalid, w) else
    let proceeds := size * price in
    if Config.dryRun config then
      let msg := [Lit "[DRY RUN] Would SELL "; Num size; Lit " shares of ";
                  Lit dquote; Lit (labelText (MarketDiscovery.outcome o));
                  Lit dquote; Lit " @ $"; Fixed 2 price; Lit " ($";
                  Fixed 2 proceeds; Lit ") — "] ++ Strategy.reason sig in
      let w := addLog msg w in
      let w := withGuard
                 (Guardrails.recordClose (conditionId market) proceeds (guard w)) w in
      ({| success := true; orderId := None; message := msg; dryRun := true |}, w)
    else if negb (isClientReady env) then
      (failure [Lit "Client not initialized"], w)
    else
      let req := {| tokenID := tokenId o; orderPrice := price; orderSize := size;
                    side := SideSELL; orderTickSize := toTickSize (tickSize market);
                    orderNegRisk := negRisk market |} in
      let w := submit req w in
      match createAndPostOrder env req with
      | Threw err =>
          (failure [Lit "Sell failed: "; Lit (thrownText err)], w)
      | Ok response =>
          let oid := orElse (match response with Some r => orderID r | None => None end)
                            "unknown" in
          let st := orElse (match response with Some r => status r | None => None end)
                           "unknown" in
          if String.eqb st "matched" || String.eqb st "live" then
            let w := withGuard
                       (Guardrails.recordClose (conditionId market) proceeds (guard w))
                       w in
            let msg := [Lit "SELL FILLED: "; Num size; Lit " shares of ";
                        Lit dquote; Lit (labelText (MarketDiscovery.outcome o));
                        Lit dquote; Lit " @ $"; Fixed 2 price; Lit " ($";
                        Fixed 2 proceeds; Lit ") — Order "; Lit oid] in
            ({| success := true; orderId := Some oid; message := msg;
                dryRun := false |}, addLog msg w)
          else
            (failure [Lit "Sell order not filled. Status: "; Lit st; Lit ", ID: ";
                      Lit oid], w)
      end
  | _, _, _ => (invalid, w)
  end.

(** The signal passes the first test of both execute functions, and what it
    carries. *)
Definition carried (sig : TradeSignal) : option (MarketOutcome * Q * Q) :=
  match Strategy.outcome sig, suggestedSize sig, suggestedPrice sig with
  | Some o, Some size, Some price =>
      if Num.falsy size || Num.falsy price then None else Some (o, size, price)
  | _, _, _ => None
  end.

End ExecutorSell.

(** ** trader-service.ts: one tick *)

Module TraderService.
Import MarketDiscovery.
Import Strategy.

Record TickResult : Type := {
  timestamp : Z;
  market : option ActiveMarket;
  signal : option TradeSignal;
  execution : option Executor.ExecutionResult;
  error : option string
}.

(** What a tick meets outside the process.  Discovery is the call of the
    try block that is modelled as able to throw. *)
Record TickEnv : Type := {
  tickTime : Z;                                     (* the clock *)
  discoverCurrentMarket : Try (option ActiveMarket);
  getBalanceAllowance : Try Q;                      (* parseFloat(bal.balance) *)
  exec : Executor.Env
}.

Record Service : Type := {
  world : Executor.World;
  tickCount : Z
}.

Definition signalText (s : Signal) : string :=
  match s with BUY => "BUY" | SELL => "SELL" | HOLD => "HOLD" | WAIT => "WAIT" end.

(** outcomes.map(...).join(" ") *)
Fixpoint pricesText (os : list MarketOutcome) : text :=
  match os with
  | [] => []
  | [o] => [Lit (labelText (MarketDiscovery.outcome o)); Lit "=$"; Fixed 2 (price o)]
  | o :: rest =>
      [Lit (labelText (MarketDiscovery.outcome o)); Lit "=$"; Fixed 2 (price o);
       Lit " "] ++ pricesText rest
  end.

Definition logged (m : text) (s : Service) : Service :=
  {| world := Executor.addLog m (world s); tickCount := tickCount s |}.

Definition counted (s : Service) : Service :=
  {| world := world s; tickCount := tickCount s + 1 |}.

Definition tick (env : TickEnv) (config : Config.TraderConfig) (s : Service)
    : TickResult * Service :=
  let result := {| timestamp := tickTime env; market := None; signal := None;
                   execution := None; error := None |} in
  match discoverCurrentMarket env with
  | Threw err =>
      let errMsg := Executor.thrownText err in
      let s := logged [Lit "[tick ERROR] "; Lit errMsg] s in
      let s :=
        if includes "insufficient" errMsg || includes "balance" errMsg then
          logged [Lit "[KILLSWITCH] Activated due to balance error"]
            {| world := Executor.withGuard
                          (Guardrails.activateKillswitch
                             ("Balance error: " ++ errMsg)
                             (Executor.guard (world s)))
                          (world s);
               tickCount := tickCount s |}
        else s in
      ({| timestamp := tickTime env; market := None; signal := None;
          execution := None; error := Some errMsg |}, s)
  | Ok None =>
      let s := counted s in
      (result,
       logged [Lit "[tick #"; Int (tickCount s);
               Lit "] No active BTC 15m market found"] s)
  | Ok (Some mkt) =>
      if closed mkt then
        let s := counted s in
        ({| timestamp := tickTime env; market := Some mkt; signal := None;
            execution := None; error := None |},
         logged [Lit "[tick #"; Int (tickCount s); Lit "] Market ";
                 Lit (slug mkt); Lit " is closed"] s)
      else
        let '(sig, g) :=
          evaluateMarket (tickTime env) mkt config (Executor.guard (world s)) in
        let s := {| world := Executor.withGuard g (world s);
                    tickCount := tickCount s |} in
        let balanceStr :=
          if Executor.isClientReady (exec env) then
            match getBalanceAllowance env with
            | Ok bal => [Lit " | Bal: $"; Fixed 2 (bal / inject_Z 1000000)]
            | Threw _ => []
            end
          else [] in
        let s := counted s in
        let s := logged ([Lit "[tick #"; Int (tickCount s); Lit "] ";
                          Lit (slug mkt); Lit " | "] ++ pricesText (outcomes mkt)
                         ++ [Lit " | "; Fixed 1 (minutesRemaining mkt);
                             Lit "min left"] ++ balanceStr
                         ++ [Lit " | "; Lit (signalText (Strategy.signal sig));
                             Lit ": "] ++ Strategy.reason sig) s in
        match Strategy.signal sig with
        | BUY =>
            let '(res, w) := Executor.executeBuy (exec env) sig mkt config (world s) in
            let s := {| world := w; tickCount := tickCount s |} in
            let s := if negb (Executor.success res)
                     then logged (Lit "[EXEC FAIL] " :: Executor.message res) s
                     else s in
            ({| timestamp := tickTime env; market := Some mkt; signal := Some sig;
                execution := Some res; error := None |}, s)
        | _ =>
            ({| timestamp := tickTime env; market := Some mkt; signal := Some sig;
                execution := None; error := None |}, s)
        end
  end.

End TraderService.

(** ** market-discovery.ts: the clock and the discovery of the market

    Seconds are whole numbers, as [Math.floor(Date.now() / 1000)] gives
    them.  The market object of the Gamma API is taken after decoding:
    the three lists are the values of [tokenIds], [prices] and
    [outcomeLabels] when the loop over the tokens starts. *)

Module Discovery.
Import MarketDiscovery.

Definition getSecondsRemaining (nowSec : Z) : Z :=
  let slotStart := getCurrentSlotStart nowSec in
  let slotEnd := (slotStart + Config.MARKET_DURATION_SEC)%Z in
  Z.max 0 (slotEnd - nowSec).

Record RawGamma : Type := {
  rawTokenIds : list string;
  rawPrices : list (option Q);      (* parseFloat of each price, [None] for NaN *)
  rawLabels : list string;
  rawCondition : option string;     (* conditionId || condition_id *)
  rawQuestion : option string;
  rawTickSize : option string;      (* minimumTickSize || minimum_tick_size *)
  rawNegRisk : option bool;         (* negRisk ?? neg_risk *)
  rawClosed : option bool
}.

(** [parseFloat(prices[i]) || 0]: NaN, a missing price and zero give 0. *)
Definition priceAt (p : option Q) : Q :=
  match p with
  | Some q => if Qeq_bool q 0 then 0 else q
  | None => 0
  end.

(** The loop over [tokenIds], the other two lists read at the same place. *)
Fixpoint buildOutcomes (tokenIds : list string) (prices : list (option Q))
    (labels : list string) : list MarketOutcome :=
  match tokenIds with
  | [] => []
  | t :: ts =>
      {| tokenId := t;
         outcome := Redeemer.labelOf (hd EmptyString labels);
         price := priceAt (hd None prices) |}
      :: buildOutcomes ts (tl prices) (tl labels)
  end.

Definition tryFetchActiveMarket (fetchMarketBySlug : string -> option RawGamma)
    (slotStart nowSec : Z) : option ActiveMarket :=
  let slug := buildMarketSlug slotStart in
  match fetchMarketBySlug slug with
  | None => None
  | Some raw =>
      let endTime := (slotStart + Config.MARKET_DURATION_SEC)%Z in
      let secondsRemaining := Z.max 0 (endTime - nowSec) in
      Some {| conditionId := orElse (rawCondition raw) EmptyString;
              slug := slug;
              question := orElse (rawQuestion raw) EmptyString;
              startTime := slotStart;
              endTime := endTime;
              secondsRemaining := secondsRemaining;
              minutesRemaining := inject_Z secondsRemaining / 60;
              outcomes := buildOutcomes (rawTokenIds raw) (rawPrices raw)
                            (rawLabels raw);
              tickSize := orElse (rawTickSize raw) "0.01";
              negRisk := match rawNegRisk raw with Some b => b | None => false end;
              closed := match rawClosed raw with Some b => b | None => false end |}
  end.

Definition discoverCurrentMarket (fetchMarketBySlug : string -> option RawGamma)
    (nowSec : Z) : option ActiveMarket :=
  let currentSlotStart := getCurrentSlotStart nowSec in
  match tryFetchActiveMarket fetchMarketBySlug currentSlotStart nowSec with
  | Some market => Some market
  | None =>
      let prevSlotStart := (currentSlotStart - Config.MARKET_DURATION_SEC)%Z in
      match tryFetchActiveMarket fetchMarketBySlug prevSlotStart nowSec with
      | Some market => Some market
      | None =>
          let nextSlotStart := (currentSlotStart + Config.MARKET_DURATION_SEC)%Z in
          tryFetchActiveMarket fetchMarketBySlug nextSlotStart nowSec
      end
  end.

End Discovery.

(** ** redeemer.ts: reading a trace *)

Module SweepTrace.
Import Redeemer.

Definition isWait (e : Event) : bool :=
  match e with EvWait _ => true | _ => false end.

Definition isPoll (e : Event) : bool :=
  match e with EvPoll _ => true | _ => false end.

(** The tokens of the redemption attempts of a trace, in order. *)
Fixpoint redeemsOf (evs : list Event) : list string :=
  match evs with
  | [] => []
  | EvRedeem _ _ tokenId :: rest => tokenId :: redeemsOf rest
  | _ :: rest => redeemsOf rest
  end.

(** The tokens of the balance queries of a trace, in order. *)
Fixpoint queriesOf (evs : list Event) : list string :=
  match evs with
  | [] => []
  | EvBalanceOf _ tokenId :: rest => tokenId :: queriesOf rest
  | _ :: rest => queriesOf rest
  end.

(** The tokens of a window the wallet holds: the balance query at their
    place answers with a positive amount. *)
Fixpoint heldTokens (env : SweepEnv) (i j : nat) (tokenIds : list string)
    : list string :=
  match tokenIds with
  | [] => []
  | t :: ts =>
      match balanceOf env i j with
      | Some bal => if Z.gtb bal 0 then t :: heldTokens env i (S j) ts
                    else heldTokens env i (S j) ts
      | None => heldTokens env i (S j) ts
      end
  end.

(** What the direct receipt poll of [waitForTx] yields. *)
Definition polled (tx : TxResponse) : option Receipt :=
  match getTransactionReceipt tx with
  | Ok (Some receipt) =>
      if negb (Z.eqb (blockNumber receipt) 0) then Some receipt else None
  | _ => None
  end.

End SweepTrace.

(** ** The BTC spot price feed kept in executor.ts

    [answers] is what the sources give, in the order of SOURCES, as far as
    they are asked: a source fails (the fetch throws, the status is not
    ok, the extraction throws) or yields a number, [None] for NaN. *)

Module PriceFeed.

Record Cache : Type := {
  lastPrice : option Q;
  lastFetchTime : Z
}.

Definition initial : Cache := {| lastPrice := None; lastFetchTime := 0 |}.

Definition CACHE_TTL_MS : Z := 5000.

Inductive SourceAnswer : Type :=
| Failed
| Extracted (price : option Q).

(** The loop over the sources: the first price above zero. *)
Fixpoint firstPrice (answers : list SourceAnswer) : option Q :=
  match answers with
  | [] => None
  | Extracted (Some price) :: rest =>
      if Num.gtb price 0 then Some price else firstPrice rest
  | _ :: rest => firstPrice rest
  end.

Definition FAILED_ALL : JsError :=
  {| errReason := None; errInnerMessage := None;
     errMessage := Some "Failed to fetch BTC price from all sources"%string;
     errString := "Error: Failed to fetch BTC price from all sources" |}.

Definition getBtcPrice (now : Z) (answers : list SourceAnswer) (c : Cache)
    : Try Q * Cache :=
  match lastPrice c with
  | Some cached =>
      if Z.ltb (now - lastFetchTime c) CACHE_TTL_MS then (Ok cached, c)
      else match firstPrice answers with
           | Some price =>
               (Ok price, {| lastPrice := Some price; lastFetchTime := now |})
           | None => (Ok cached, c)
           end
  | None =>
      match firstPrice answers with
      | Some price =>
          (Ok price, {| lastPrice := Some price; lastFetchTime := now |})
      | None => (Threw FAILED_ALL, c)
      end
  end.

(** A run of calls, each with its clock and the answers of the sources;
    the results are listed in order. *)
Fixpoint calls (cs : list (Z * list SourceAnswer)) (c : Cache)
    : list (Try Q) * Cache :=
  match cs with
  | [] => ([], c)
  | (now, answers) :: rest =>
      let '(r, c') := getBtcPrice now answers c in
      let '(rs, c'') := calls rest c' in
      (r :: rs, c'')
  end.

Definition returned (r : Try Q) : bool :=
  match r with Ok _ => true | Threw _ => false end.

(** No call throws after a call has returned. *)
Fixpoint settled (rs : list (Try Q)) : bool :=
  match rs with
  | [] => true
  | Ok _ :: rest => forallb returned rest
  | Threw _ :: rest => settled rest
  end.

Definition positive (r : Try Q) : Prop :=
  match r with Ok price => 0 < price | Threw _ => True end.

End PriceFeed.

(** ** More sample values *)

Module MoreSamples.

(** A process that has just started, no ledger on disk. *)
Definition freshWorld : Executor.World :=
  {| Executor.guard := Guardrails.createFreshState 0;
     Executor.ledger := None;
     Executor.orders := [];
     Executor.logs := [] |}.

(** A live configuration: orders go to the exchange. *)
Definition tradingConfig : Config.TraderConfig :=
  {| Config.privateKey := "0xkey"; Config.funderAddress := "0xfunder";
     Config.signatureType := 1; Config.enabled := true; Config.dryRun := false;
     Config.maxOrderSize := 10; Config.maxPositionSize := 50;
     Config.maxDailyLoss := 25; Config.maxTradesPerHour := 10;
     Config.minEntryPrice := 60 # 100; Config.entryWindowMinStart := 5;
     Config.entryWindowMinEnd := 10; Config.takeProfitPct := 80 # 100;
     Config.tickIntervalSec := 30 |}.

(** A service that holds the position of the sample window. *)
Definition holdingService : TraderService.Service :=
  {| TraderService.world :=
       {| Executor.guard := Samples.halted; Executor.ledger := None;
          Executor.orders := []; Executor.logs := [] |};
     TraderService.tickCount := 0 |}.

(** A tick that finds the sample window late in its life. *)
Definition tickEnv : TraderService.TickEnv :=
  {| TraderService.tickTime := 1680000;
     TraderService.discoverCurrentMarket := Ok (Some Samples.lateMarket);
     TraderService.getBalanceAllowance := Ok 25000000;
     TraderService.exec := Samples.execEnv |}.

(** The position the sample BUY signal leads to. *)
Definition boughtPosition : Guardrails.PositionRecord :=
  {| Guardrails.conditionId := "0xabc"; Guardrails.tokenId := "tok-up";
     Guardrails.outcome := Guardrails.Up;
     Guardrails.entryPrice := 62 # 100; Guardrails.size := 16;
     Guardrails.costBasis := 992 # 100; Guardrails.entryTime := 0;
     Guardrails.marketSlug := "btc-updown-15m-900";
     Guardrails.negRisk := false |}.

Definition heldOutcome : MarketDiscovery.MarketOutcome :=
  {| MarketDiscovery.tokenId := "tok-up";
     MarketDiscovery.outcome := Guardrails.Up;
     MarketDiscovery.price := 95 # 100 |}.

Definition gamma : Discovery.RawGamma :=
  {| Discovery.rawTokenIds := ["tok-up"; "tok-down"]%string;
     Discovery.rawPrices := [Some (62 # 100); Some (38 # 100)];
     Discovery.rawLabels := ["Up"; "Down"]%string;
     Discovery.rawCondition := Some "0xabc"%string;
     Discovery.rawQuestion := Some "Bitcoin Up or Down"%string;
     Discovery.rawTickSize := None;
     Discovery.rawNegRisk := None;
     Discovery.rawClosed := None |}.

(** An API that lists the window starting at second 1999800 only. *)
Definition gammaApi (slug : string) : option Discovery.RawGamma :=
  if String.eqb slug "btc-updown-15m-1999800" then Some gamma else None.

End MoreSamples.

(** * Properties *)

(** ** Map lemmas *)

Section JsMapFacts.
Variable V : Type.
Implicit Types (m : JsMap.t V) (k : string) (v : V).

Lemma get_set_same m k v : JsMap.get k (JsMap.set k v m) = Some v.
Proof.
  induction m as [|[k' v'] m IH]; simpl.
  - now rewrite String.eqb_refl.
  - destruct (String.eqb k k') eqn:E; simpl; rewrite ?String.eqb_refl, ?E; auto.
Qed.

Lemma get_delete_same m k : JsMap.get k (JsMap.delete k m) = None.
Proof.
  unfold JsMap.delete.
  induction m as [|[k' v'] m IH]; simpl; auto.
  destruct (String.eqb k k') eqn:E; simpl; auto.
  now rewrite E.
Qed.

Lemma get_none_not_in m k : JsMap.get k m = None -> ~ In k (JsMap.keys m).
Proof.
  induction m as [|[k' v'] m IH]; simpl; auto.
  destruct (String.eqb k k') eqn:E; [discriminate|].
  intros H [Hk | Hin]; [| now apply IH].
  subst. now rewrite String.eqb_refl in E.
Qed.

Lemma not_in_get_none m k : ~ In k (JsMap.keys m) -> JsMap.get k m = None.
Proof.
  induction m as [|[k' v'] m IH]; simpl; auto.
  intros H. destruct (String.eqb k k') eqn:E.
  - apply String.eqb_eq in E. subst. tauto.
  - apply IH. tauto.
Qed.

Lemma set_fresh m k v : JsMap.get k m = None -> JsMap.set k v m = m ++ [(k, v)].
Proof.
  induction m as [|[k' v'] m IH]; simpl; auto.
  destruct (String.eqb k k'); [discriminate|].
  intros H. now rewrite IH.
Qed.



Lemma keys_delete_incl m k k' :
  In k' (JsMap.keys (JsMap.delete k m)) -> In k' (JsMap.keys m).
Proof.
  unfold JsMap.delete, JsMap.keys.
  rewrite !in_map_iff. intros [x [Hx Hin]].
  apply filter_In in Hin. exists x. tauto.
Qed.

Lemma NoDup_keys_delete m k :
  NoDup (JsMap.keys m) -> NoDup (JsMap.keys (JsMap.delete k m)).
Proof.
  induction m as [|[k' v'] m IH]; simpl; auto.
  intros H. inversion H as [|? ? Hnotin Hnd]; subst.
  destruct (String.eqb k k'); simpl; [now apply IH|].
  constructor; [| now apply IH].
  intros Hin. apply Hnotin. eapply keys_delete_incl; eauto.
Qed.

Lemma keys_set_present m k v :
  In k (JsMap.keys m) -> JsMap.keys (JsMap.set k v m) = JsMap.keys m.
Proof.
  induction m as [|[k' v'] m IH]; simpl; [tauto|].
  destruct (String.eqb k k') eqn:E; simpl.
  - apply String.eqb_eq in E. now subst.
  - intros [Hk | Hin]; [subst; now rewrite String.eqb_refl in E|].
    now rewrite IH.
Qed.

Lemma NoDup_keys_set m k v :
  NoDup (JsMap.keys m) -> NoDup (JsMap.keys (JsMap.set k v m)).
Proof.
  intros H. destruct (JsMap.get k m) eqn:G.
  - rewrite keys_set_present; auto.
    destruct (in_dec string_dec k (JsMap.keys m)) as [Hin | Hout]; auto.
    apply not_in_get_none in Hout. congruence.
  - rewrite set_fresh by assumption. unfold JsMap.keys. rewrite map_app. simpl.
    apply NoDup_app; [assumption | repeat constructor; simpl; tauto |].
    intros x Hx [Hk | []]. subst. revert Hx. now apply get_none_not_in.
Qed.

End JsMapFacts.

(** ** Guardrail state *)

Section GuardrailFacts.
Import Guardrails.

Lemma killswitch_maybeResetDaily now st :
  killswitch (maybeResetDaily now st) = killswitch st.
Proof. unfold maybeResetDaily. now destruct (negb _). Qed.

Lemma killswitch_pruneHourlyTrades now st :
  killswitch (pruneHourlyTrades now st) = killswitch st.
Proof. reflexivity. Qed.

Lemma killswitch_refresh now st :
  killswitch (pruneHourlyTrades now (maybeResetDaily now st)) = killswitch st.
Proof. now rewrite killswitch_pruneHourlyTrades, killswitch_maybeResetDaily. Qed.

Lemma checkPreTrade_state now config cost st :
  snd (checkPreTrade now config cost st)
  = pruneHourlyTrades now (maybeResetDaily now st).
Proof.
  unfold checkPreTrade.
  repeat match goal with |- context [if ?b then _ else _] => destruct b end;
    reflexivity.
Qed.

Lemma positions_refresh now st :
  openPositions (pruneHourlyTrades now (maybeResetDaily now st)) = openPositions st.
Proof. unfold maybeResetDaily. now destruct (negb _). Qed.

Lemma exposure_refresh now st :
  totalExposure (pruneHourlyTrades now (maybeResetDaily now st)) = totalExposure st.
Proof. unfold maybeResetDaily. now destruct (negb _). Qed.









End GuardrailFacts.

(** C2. With the killswitch set, [checkPreTrade] denies with the killswitch
    reason, whatever the configuration, the order cost and the other fields
    of the state are: no other check is consulted first. *)
Theorem checkPreTrade_killswitch_denies :
  forall now config orderSizeUSDC st,
    Guardrails.killswitch st = true ->
    fst (Guardrails.checkPreTrade now config orderSizeUSDC st)
    = Guardrails.deny Guardrails.KILLSWITCH_REASON.
Proof.
  intros now config cost st H. unfold Guardrails.checkPreTrade.
  now rewrite killswitch_refresh, H.
Qed.

Lemma checkPreTrade_killswitch_denies_witness :
  Guardrails.killswitch Samples.halted = true
  /\ fst (Guardrails.checkPreTrade 90000000 Config.DEFAULT_CONFIG 5 Samples.halted)
     = Guardrails.deny Guardrails.KILLSWITCH_REASON.
Proof.
  split; [reflexivity|].
  apply checkPreTrade_killswitch_denies. reflexivity.
Defined.

(** C10. [recordClose] on a key without an open position returns the state
    as it was, for every value of the proceeds: profit and loss, exposure,
    positions and killswitch are untouched and the loss threshold is not
    looked at. *)
Theorem recordClose_absent_unchanged :
  forall st k proceeds,
    JsMap.get k (Guardrails.openPositions st) = None ->
    Guardrails.recordClose k proceeds st = st.
Proof.
  intros st k proceeds H. unfold Guardrails.recordClose. now rewrite H.
Qed.

Lemma recordClose_absent_unchanged_witness :
  JsMap.get "0xdef" (Guardrails.openPositions Samples.halted) = None
  /\ Guardrails.recordClose "0xdef" (- (1000)) Samples.halted = Samples.halted.
Proof.
  split; [reflexivity|].
  apply recordClose_absent_unchanged. reflexivity.
Defined.



(** C4, as stated: every operation other than [resetKillswitch] keeps a set
    killswitch.  The full state reset does not: [resetState] installs a
    fresh state, whose killswitch is off. *)
Lemma resetState_clears_killswitch :
  ~ (forall st op,
       Guardrails.killswitch st = true ->
       op <> Guardrails.OpResetKillswitch ->
       Guardrails.killswitch (Guardrails.runOp op st) = true).
Proof.
  intros H.
  specialize (H Samples.halted (Guardrails.OpResetState 0) eq_refl).
  simpl in H. discriminate H. discriminate.
Qed.

(** C4, amended. A set killswitch survives the day-rollover reset and every
    operation other than [resetKillswitch] and the full state reset
    [resetState]; these two turn it off. *)
Theorem killswitch_sticky :
  forall st,
    Guardrails.killswitch st = true ->
    (forall now, Guardrails.killswitch (Guardrails.maybeResetDaily now st) = true)
    /\ (forall op,
          op <> Guardrails.OpResetKillswitch ->
          (forall now, op <> Guardrails.OpResetState now) ->
          Guardrails.killswitch (Guardrails.runOp op st) = true)
    /\ Guardrails.killswitch (Guardrails.resetKillswitch st) = false
    /\ (forall now, Guardrails.killswitch (Guardrails.resetState now st) = false).
Proof.
  intros st H. repeat split.
  - intros now. now rewrite killswitch_maybeResetDaily.
  - intros op Hk Hs. destruct op; cbn [Guardrails.runOp].
    + now rewrite checkPreTrade_state, killswitch_refresh.
    + exact H.
    + unfold Guardrails.recordClose.
      destruct (JsMap.get cid (Guardrails.openPositions st)); simpl; [|exact H].
      rewrite H. now destruct (_ && _).
    + reflexivity.
    + now contradiction Hk.
    + unfold Guardrails.getGuardrailState. cbn [snd].
      now rewrite killswitch_refresh.
    + now contradiction (Hs now).
Qed.

Lemma killswitch_sticky_witness :
  Guardrails.killswitch
    (Guardrails.runOp (Guardrails.OpGetGuardrailState 90000000) Samples.halted)
  = true.
Proof.
  refine (proj1 (proj2 (@killswitch_sticky Samples.halted eq_refl)) _ _ _);
    discriminate.
Defined.




(** ** Strategy *)

Section StrategyFacts.
Import MarketDiscovery.
Import Strategy.

Lemma geb_true a b : b <= a -> Num.geb a b = true.
Proof. intros H. unfold Num.geb. now apply Qle_bool_iff. Qed.

Lemma leb_true a b : a <= b -> Num.leb a b = true.
Proof. intros H. unfold Num.leb. now apply Qle_bool_iff. Qed.

Lemma gtb_true a b : b < a -> Num.gtb a b = true.
Proof.
  intros H. unfold Num.gtb. destruct (Qle_bool a b) eqn:E; [|reflexivity].
  apply Qle_bool_iff in E. lra.
Qed.

Lemma gtb_false a b : a <= b -> Num.gtb a b = false.
Proof. intros H. unfold Num.gtb. apply Qle_bool_iff in H. now rewrite H. Qed.

Lemma ltb_false a b : b <= a -> Num.ltb a b = false.
Proof. intros H. unfold Num.ltb. apply Qle_bool_iff in H. now rewrite H. Qed.

Lemma leb_false a b : b < a -> Num.leb a b = false.
Proof.
  intros H. unfold Num.leb. destruct (Qle_bool a b) eqn:E; [|reflexivity].
  apply Qle_bool_iff in E. lra.
Qed.

End StrategyFacts.

(** C5. When the market lists the held token at price 0.95 and the position
    has size 10 and cost basis 5.0 (bought at 0.50), with a take-profit
    fraction of 0.80, [evaluateExit] finds an unrealized gain of 0.90 and
    signals SELL for the held outcome, at the held size 10 and the current
    price 0.95.  The entry price is not read by the function. *)
Theorem evaluateExit_take_profit_example :
  forall market position config held,
    find (fun o => String.eqb (MarketDiscovery.tokenId o)
                     (Guardrails.tokenId position))
         (MarketDiscovery.outcomes market) = Some held ->
    MarketDiscovery.price held == 95 # 100 ->
    Guardrails.size position == 10 ->
    Guardrails.costBasis position == 5 ->
    Config.takeProfitPct config == 80 # 100 ->
    let s := Strategy.evaluateExit market position config in
    Strategy.signal s = Strategy.SELL
    /\ Strategy.outcome s = Some held
    /\ Num.has (Strategy.suggestedSize s) 10
    /\ Num.has (Strategy.suggestedPrice s) (95 # 100)
    /\ Num.has (Strategy.unrealizedGainPct s) (90 # 100).
Proof.
  intros market position config held Hfind Hprice Hsize Hcost Htp. cbv zeta.
  unfold Strategy.evaluateExit. rewrite Hfind.
  assert (Hgain : (MarketDiscovery.price held * Guardrails.size position
                   - Guardrails.costBasis position)
                  / Guardrails.costBasis position == 90 # 100).
  { rewrite Hprice, Hsize, Hcost. reflexivity. }
  rewrite geb_true by (rewrite Hgain, Htp; discriminate).
  simpl. auto.
Qed.

Lemma evaluateExit_take_profit_example_witness :
  let s := Strategy.evaluateExit Samples.lateMarket (Samples.position "0xabc" 5)
             Samples.liveConfig in
  Strategy.signal s = Strategy.SELL
  /\ Strategy.outcome s = hd_error (MarketDiscovery.outcomes Samples.lateMarket)
  /\ Num.has (Strategy.suggestedSize s) 10
  /\ Num.has (Strategy.suggestedPrice s) (95 # 100)
  /\ Num.has (Strategy.unrealizedGainPct s) (90 # 100).
Proof.
  apply (@evaluateExit_take_profit_example Samples.lateMarket
           (Samples.position "0xabc" 5) Samples.liveConfig);
    reflexivity.
Defined.

(** The hold-to-resolution revision holds whatever the gain is; when the
    held token is listed it reports the gain the take-profit revision
    computes. *)
Remark holdOnly_never_sells market position config :
  Strategy.signal (StrategyHoldOnly.evaluateExit market position config)
  = Strategy.HOLD
  /\ (forall held,
        find (fun o => String.eqb (MarketDiscovery.tokenId o)
                         (Guardrails.tokenId position))
             (MarketDiscovery.outcomes market) = Some held ->
        Strategy.unrealizedGainPct
          (StrategyHoldOnly.evaluateExit market position config)
        = Strategy.unrealizedGainPct
            (Strategy.evaluateExit market position config)).
Proof.
  unfold StrategyHoldOnly.evaluateExit, Strategy.evaluateExit.
  destruct (find _ _) as [held|]; split; try reflexivity; try discriminate.
  intros held' _. destruct (Num.geb _ _); [reflexivity|].
  now destruct (_ && _).
Qed.

(** C6. An open market with exactly the outcomes Up at 0.62 and Down at
    0.38 (in either order) and 9.6 minutes left, no position held for its
    identifier, entry window [5,10], minimum entry price 0.60 and maximal
    order cost 10: the evaluation signals BUY of the Up outcome, 16 shares
    (the floor of 10/0.62) at 0.62. *)
Theorem evaluateMarket_entry_example :
  forall now market config st up down,
    MarketDiscovery.closed market = false ->
    MarketDiscovery.outcomes market = [up; down]
      \/ MarketDiscovery.outcomes market = [down; up] ->
    MarketDiscovery.outcome up = Guardrails.Up ->
    MarketDiscovery.price up == 62 # 100 ->
    MarketDiscovery.outcome down = Guardrails.Down ->
    MarketDiscovery.price down == 38 # 100 ->
    MarketDiscovery.minutesRemaining market == 96 # 10 ->
    find (fun p => String.eqb (Guardrails.conditionId p)
                     (MarketDiscovery.conditionId market))
         (JsMap.values (Guardrails.openPositions st)) = None ->
    Config.entryWindowMinStart config == 5 ->
    Config.entryWindowMinEnd config == 10 ->
    Config.minEntryPrice config == 60 # 100 ->
    Config.maxOrderSize config == 10 ->
    let s := fst (Strategy.evaluateMarket now market config st) in
    Strategy.signal s = Strategy.BUY
    /\ Strategy.outcome s = Some up
    /\ Strategy.suggestedSize s = Some (inject_Z 16)
    /\ Num.has (Strategy.suggestedPrice s) (62 # 100).
Proof.
  intros now market config st up down Hopen Houts Hup Pup Hdown Pdown Hmin
         Hnone Hstart Hend Hentry Hmax.
  cbv zeta. unfold Strategy.evaluateMarket, Guardrails.getGuardrailState.
  cbn [Guardrails.positionsList]. rewrite positions_refresh, Hnone. cbn [fst].
  unfold Strategy.evaluateEntry. rewrite Hopen.
  unfold MarketDiscovery.isInEntryWindow.
  rewrite geb_true by (rewrite Hmin, Hstart; discriminate).
  rewrite leb_true by (rewrite Hmin, Hend; discriminate).
  cbn [andb negb].
  assert (Hlead : MarketDiscovery.getLeadingOutcome market = Some up).
  { unfold MarketDiscovery.getLeadingOutcome.
    destruct Houts as [-> | ->]; cbn [fold_left].
    - rewrite gtb_false by (rewrite Pup, Pdown; discriminate). reflexivity.
    - rewrite gtb_true by (rewrite Pup, Pdown; reflexivity). reflexivity. }
  rewrite Hlead.
  rewrite ltb_false by (rewrite Pup, Hentry; discriminate).
  assert (Hfloor : Num.floor (Config.maxOrderSize config / MarketDiscovery.price up)
                   = inject_Z 16).
  { unfold Num.floor. rewrite Hmax, Pup. reflexivity. }
  rewrite Hfloor. rewrite leb_false by reflexivity.
  cbn. auto.
Qed.

Lemma evaluateMarket_entry_example_witness :
  let s := fst (Strategy.evaluateMarket 1224000 Samples.market Samples.liveConfig
                  (Guardrails.createFreshState 0)) in
  Strategy.signal s = Strategy.BUY
  /\ Strategy.outcome s = Some Samples.upOutcome
  /\ Strategy.suggestedSize s = Some (inject_Z 16)
  /\ Num.has (Strategy.suggestedPrice s) (62 # 100).
Proof.
  apply (@evaluateMarket_entry_example 1224000 Samples.market Samples.liveConfig
           (Guardrails.createFreshState 0) Samples.upOutcome Samples.downOutcome);
    try reflexivity.
  left. reflexivity.
Defined.

(** ** Trade log and executor *)

Section LedgerFacts.
Import TradeLog.

Lemma scanBack_readable type slug ls :
  forallb parses ls = true ->
  scanBack type slug ls = existsb (matches type slug) ls.
Proof.
  induction ls as [|l ls IH]; simpl; auto.
  destruct l as [| | |e]; simpl; try discriminate; intros H;
    rewrite <- IH by assumption; reflexivity.
Qed.

Lemma forallb_rev (A : Type) (f : A -> bool) (l : list A) :
  forallb f (rev l) = forallb f l.
Proof.
  induction l as [|a l IH]; simpl; auto.
  rewrite forallb_app, IH. simpl. rewrite andb_true_r. apply andb_comm.
Qed.

Lemma existsb_rev (A : Type) (f : A -> bool) (l : list A) :
  existsb f (rev l) = existsb f l.
Proof.
  induction l as [|a l IH]; simpl; auto.
  rewrite existsb_app, IH. simpl. rewrite orb_false_r. apply orb_comm.
Qed.

Lemma hasEntry_readable type slug f :
  readable f = true ->
  hasEntry type slug f = existsb (matches type slug) (linesOf f).
Proof.
  destruct f as [ls|]; simpl; auto.
  unfold readable. simpl. intros H.
  rewrite scanBack_readable by now rewrite forallb_rev.
  apply existsb_rev.
Qed.

(** A line that does not parse hides every line before it: the exception
    ends the scan and the answer is [false]. *)
Remark hasEntry_behind_unparsable type slug ls :
  hasEntry type slug (Some (ls ++ [Unparsable])) = false.
Proof. simpl. now rewrite rev_app_distr. Qed.

Lemma matches_buy slug l : matches "buy" slug l = isBuyFor slug l.
Proof. destruct l as [| | |[b|r]]; reflexivity. Qed.


Lemma hasBoughtSlug_readable slug f :
  readable f = true -> hasBoughtSlug slug f = containsBuy slug f.
Proof.
  intros H. unfold hasBoughtSlug, containsBuy.
  rewrite hasEntry_readable by assumption.
  induction (linesOf f) as [|l ls IH]; simpl; auto.
  now rewrite matches_buy, IH.
Qed.

Lemma linesOf_appendLine l f : linesOf (appendLine l f) = linesOf f ++ [l].
Proof. now destruct f. Qed.

Lemma readable_appendLine e f :
  readable f = true -> readable (appendLine (Parsed e) f) = true.
Proof.
  unfold readable. rewrite linesOf_appendLine, forallb_app.
  intros ->. reflexivity.
Qed.

End LedgerFacts.

Section ExecutorFacts.
Import Executor.

(** With the buy of the window on the ledger, nothing past the ledger
    check runs. *)
Lemma executeBuy_already_bought env sig market config w :
  TradeLog.hasBoughtSlug (MarketDiscovery.slug market) (ledger w) = true ->
  snd (executeBuy env sig market config w) = w
  /\ success (fst (executeBuy env sig market config w)) = false
  /\ (validBuySignal sig = true ->
      message (fst (executeBuy env sig market config w)) = ALREADY_BOUGHT market).
Proof.
  intros Hseen. unfold executeBuy, validBuySignal.
  destruct (Strategy.outcome sig) as [o|]; [| now repeat split].
  destruct (Strategy.suggestedSize sig) as [size|]; [| now repeat split].
  destruct (Strategy.suggestedPrice sig) as [price|]; [| now repeat split].
  destruct (Num.falsy size || Num.falsy price); [now repeat split|].
  rewrite Hseen. now repeat split.
Qed.

Lemma containsBuy_logBuy now slug o price size cost oid f :
  TradeLog.containsBuy slug (TradeLog.logBuy now slug o price size cost oid f) = true.
Proof.
  unfold TradeLog.containsBuy, TradeLog.logBuy.
  rewrite linesOf_appendLine, existsb_app. simpl.
  rewrite String.eqb_refl. apply orb_true_r.
Qed.

(** A successful buy leaves its fact on the ledger. *)
Lemma executeBuy_success_logged env sig market config w :
  success (fst (executeBuy env sig market config w)) = true ->
  TradeLog.readable (ledger w) = true ->
  TradeLog.readable (ledger (snd (executeBuy env sig market config w))) = true
  /\ TradeLog.containsBuy (MarketDiscovery.slug market)
       (ledger (snd (executeBuy env sig market config w))) = true.
Proof.
  unfold executeBuy.
  destruct (Strategy.outcome sig) as [o|]; [| discriminate].
  destruct (Strategy.suggestedSize sig) as [size|]; [| discriminate].
  destruct (Strategy.suggestedPrice sig) as [price|]; [| discriminate].
  destruct (Num.falsy size || Num.falsy price); [discriminate|].
  destruct (TradeLog.hasBoughtSlug _ _); [discriminate|].
  destruct (Guardrails.checkPreTrade _ _ _ _) as [check g].
  destruct (negb (Guardrails.allowed check)); [discriminate|].
  destruct (Config.dryRun config).
  - intros _ Hrec. cbn. split.
    + now apply readable_appendLine.
    + apply containsBuy_logBuy.
  - destruct (negb (isClientReady env)); [discriminate|].
    destruct (createAndPostOrder env _) as [response | err]; [| discriminate].
    destruct (String.eqb _ "matched" || String.eqb _ "live"); [| discriminate].
    intros _ Hrec. cbn. split.
    + now apply readable_appendLine.
    + apply containsBuy_logBuy.
Qed.

(** X29. Two attempts on one window: when the first succeeds, the second is
    turned away and changes nothing, in the same process or after a
    restart, whatever the exchange, the signal and the configuration are
    the second time. *)
Remark second_buy_rejected env1 env2 sig1 sig2 market config1 config2 w :
  TradeLog.readable (ledger w) = true ->
  success (fst (executeBuy env1 sig1 market config1 w)) = true ->
  let w1 := snd (executeBuy env1 sig1 market config1 w) in
  (snd (executeBuy env2 sig2 market config2 w1) = w1
   /\ success (fst (executeBuy env2 sig2 market config2 w1)) = false)
  /\ forall now,
       snd (executeBuy env2 sig2 market config2 (restart now w1)) = restart now w1
       /\ success (fst (executeBuy env2 sig2 market config2 (restart now w1))) = false.
Proof.
  intros Hrec Hok w1.
  destruct (executeBuy_success_logged _ _ _ _ _ Hok Hrec) as [Hrec1 Hbuy1].
  fold w1 in Hrec1, Hbuy1.
  assert (Hseen : TradeLog.hasBoughtSlug (MarketDiscovery.slug market) (ledger w1) = true)
    by now rewrite hasBoughtSlug_readable.
  split; [| intros now].
  - destruct (@executeBuy_already_bought env2 sig2 market config2 w1 Hseen) as [A [B _]].
    now split.
  - destruct (@executeBuy_already_bought env2 sig2 market config2 (restart now w1) Hseen)
      as [A [B _]].
    now split.
Qed.

End ExecutorFacts.



(** ** Redemption sweep *)

Section SweepLedger.
Import TradeLog.
Import Redeemer.

Lemma ledger_waitAttempts tx left : forall attempt r,
  ledger (snd (waitAttempts tx attempt left r)) = ledger r.
Proof.
  induction left as [|left IH]; intros attempt r; simpl; auto.
  destruct (wait tx attempt); simpl; auto.
  now rewrite IH.
Qed.

Lemma ledger_waitForTx tx r : ledger (snd (waitForTx tx r)) = ledger r.
Proof.
  unfold waitForTx.
  pose proof (ledger_waitAttempts tx 3 0 r) as H.
  destruct (waitAttempts tx 0 3 r) as [[receipt|] r']; simpl in *; auto.
  destruct (getTransactionReceipt tx) as [[receipt|]|err]; simpl; auto.
  now destruct (negb _).
Qed.

Lemma ledger_redeemToken env i j slug cid tokenId bal r :
  ledger (runOf (redeemToken env i j slug cid tokenId bal r)) = ledger r.
Proof.
  unfold redeemToken.
  destruct (proxy env i j) as [tx | err].
  - match goal with |- context [waitForTx tx ?r0] =>
      pose proof (ledger_waitForTx tx r0) as H;
      destruct (waitForTx tx r0) as [receipt r']
    end.
    simpl in H. destruct receipt as [rc|]; simpl; auto.
    destruct (Z.eqb (receiptStatus rc) 1); simpl; auto.
    destruct (Z.eqb (receiptStatus rc) 0); simpl; auto.
  - now destruct (includes _ _).
Qed.

Lemma ledger_sweepTokens env funder i slug cid tokenIds : forall j r,
  ledger (runOf (sweepTokens env funder i j slug cid tokenIds r)) = ledger r.
Proof.
  induction tokenIds as [|tokenId rest IH]; intros j r; simpl; auto.
  destruct (balanceOf env i j) as [bal|]; [| now rewrite IH].
  destruct (Z.gtb bal 0); [| now rewrite IH].
  match goal with |- context [redeemToken env i j slug cid tokenId bal ?r0] =>
    pose proof (ledger_redeemToken env i j slug cid tokenId bal r0) as H;
    destruct (redeemToken env i j slug cid tokenId bal r0) as [r' | r']
  end; simpl in *; auto.
  now rewrite IH.
Qed.

Lemma winnerScan_decodes labels prices winner :
  winnerScan labels prices = Some winner ->
  exists p, In (Some p) prices /\ p == 1.
Proof.
  revert labels. induction prices as [|q qs IH]; intros labels; simpl; [discriminate|].
  destruct (isOne q) eqn:E.
  - intros _. destruct q as [p|]; [| discriminate].
    exists p. split; [now left | now apply Qeq_bool_iff].
  - intros H. destruct (IH _ H) as [p [Hin Hp]]. exists p. auto.
Qed.

Lemma getWinner_decodable market winner :
  getWinner market = Some winner -> decodable market.
Proof.
  unfold getWinner, decodable.
  destruct (rawOutcomes market) as [[labels prices]|]; [| discriminate].
  intros H. destruct (winnerScan_decodes _ _ H) as [p Hp].
  exists labels, prices, p. auto.
Qed.

(** What one window does to the ledger: nothing, or the one resolution of
    its slug, and that only for a decodable winner not yet recorded. *)
Lemma ledger_sweepWindow env funder i r :
  ledger (runOf (sweepWindow env funder i r)) = ledger r
  \/ exists market winner,
       fetchMarket env i = FetchOk market
       /\ getWinner market = Some winner
       /\ decodable market
       /\ hasResolution (slugOfWindow env i) (ledger r) = false
       /\ ledger (runOf (sweepWindow env funder i r))
          = logResolution (timeAt env i) (slugOfWindow env i) winner (ledger r).
Proof.
  unfold sweepWindow.
  destruct (fetchMarket env i) as [| | |market] eqn:F; simpl; auto.
  destruct (rawConditionId market) as [cid|]; simpl; auto.
  assert (Hnote : forall r0 : Run,
            ledger r0 = ledger (noteResolution env i (slugOfWindow env i) market
                                  (emit [EvFetch (slugOfWindow env i)] r)) ->
            ledger r0 = ledger r
            \/ exists market' winner,
                 FetchOk market = FetchOk market'
                 /\ getWinner market' = Some winner
                 /\ decodable market'
                 /\ hasResolution (slugOfWindow env i) (ledger r) = false
                 /\ ledger r0 = logResolution (timeAt env i) (slugOfWindow env i)
                                  winner (ledger r)).
  { intros r0 ->. unfold noteResolution.
    destruct (getWinner market) as [winner|] eqn:W; simpl; auto.
    destruct (hasResolution (slugOfWindow env i) (ledger r)) eqn:Hres; simpl; auto.
    right. exists market, winner. repeat split; auto.
    now apply getWinner_decodable with winner. }
  destruct (clobTokenIds market) as [tokenIds|]; [| now apply Hnote].
  apply Hnote. now rewrite ledger_sweepTokens.
Qed.











End SweepLedger.

Example two_sweeps_one_resolution :
  TradeLog.linesOf (Redeemer.runSteps Samples.twoSweeps None)
  = [TradeLog.Parsed (TradeLog.Resolution
       {| TradeLog.res_time := 2000010000;
          TradeLog.res_slug := "btc-updown-15m-1998900";
          TradeLog.resolved := Guardrails.Up |});
     TradeLog.Parsed (TradeLog.Buy
       {| TradeLog.buy_time := 2000100000;
          TradeLog.buy_slug := "btc-updown-15m-1999800";
          TradeLog.buy_outcome := Guardrails.Up;
          TradeLog.buy_price := 62 # 100; TradeLog.buy_size := 16;
          TradeLog.buy_cost := 992 # 100; TradeLog.buy_orderId := "dry-run" |})].
Proof. vm_compute. reflexivity. Qed.



Section SweepControl.
Import Redeemer.

Lemma sweepTokens_app env funder i slug cid before rest : forall j r,
  sweepTokens env funder i j slug cid (before ++ rest) r
  = match sweepTokens env funder i j slug cid before r with
    | Return r' => Return r'
    | Continue r' => sweepTokens env funder i (j + length before) slug cid rest r'
    end.
Proof.
  induction before as [|tokenId before IH]; intros j r; simpl.
  - now rewrite Nat.add_0_r.
  - destruct (balanceOf env i j) as [bal|].
    + destruct (Z.gtb bal 0).
      * destruct (redeemToken _ _ _ _ _ _ _ _) as [r' | r']; auto.
        now rewrite IH, Nat.add_succ_r.
      * now rewrite IH, Nat.add_succ_r.
    + now rewrite IH, Nat.add_succ_r.
Qed.

Lemma sweepWindows_app env funder before rest : forall r,
  sweepWindows env funder (before ++ rest) r
  = match sweepWindows env funder before r with
    | Return r' => Return r'
    | Continue r' => sweepWindows env funder rest r'
    end.
Proof.
  induction before as [|i before IH]; intros r; simpl; auto.
  destruct (sweepWindow env funder i r) as [r' | r']; auto.
Qed.

Lemma windows_split i :
  (1 <= i <= 20)%nat ->
  seq 1 20 = seq 1 (i - 1) ++ i :: seq (S i) (20 - i).
Proof.
  intros H.
  replace 20%nat with ((i - 1) + S (20 - i))%nat at 1 by lia.
  rewrite seq_app. cbn [seq].
  replace (1 + (i - 1))%nat with i by lia. reflexivity.
Qed.

(** The step of the token loop at a token whose redemption throws. *)
Lemma sweepTokens_thrown env funder i j slug cid tokenId rest r bal err :
  balanceOf env i j = Some bal -> (0 < bal)%Z ->
  proxy env i j = Threw err ->
  let r3 := emit [EvLog (foundText slug cid bal); EvSleep 3000;
                  EvRedeem slug cid tokenId]
              (emit [EvBalanceOf funder tokenId] r) in
  sweepTokens env funder i j slug cid (tokenId :: rest) r
  = if includes "insufficient funds" (recognizedReason err)
    then Return (emit [EvLog OUT_OF_GAS] r3)
    else sweepTokens env funder i (S j) slug cid rest
           (emit [EvLog (failedOn slug (recognizedReason err)); EvSleep 5000] r3).
Proof.
  intros Hbal Hpos Hthrow. cbn [sweepTokens]. rewrite Hbal.
  replace (Z.gtb bal 0) with true by (symmetry; now apply Z.gtb_lt).
  unfold redeemToken. rewrite Hthrow. cbv zeta.
  now destruct (includes _ _).
Qed.

End SweepControl.

(** C9. Let a sweep reach token [tokenId] of window [i] (the windows and the
    tokens before it let the loops go on), let the wallet hold the token and
    let its redemption attempt throw.  When the recognized reason contains
    "insufficient funds" the sweep ends there: after the attempt it logs the
    out-of-gas line and nothing else happens, no further token or window is
    looked at and no summary is logged.  For any other reason the failure is
    logged, and the loop goes on with the next token of the window and, once
    the tokens are done, with the next window. *)
Theorem sweep_stops_only_on_insufficient_funds :
  forall env funder log gas i market cid before tokenId after r1 r2 bal err,
    Redeemer.connect env = None ->
    Redeemer.getBalance env = Ok gas ->
    (Redeemer.MIN_GAS_WEI <= gas)%Z ->
    (1 <= i <= 20)%nat ->
    Redeemer.sweepWindows env funder (seq 1 (i - 1)) (Redeemer.startOf log)
    = Redeemer.Continue r1 ->
    Redeemer.fetchMarket env i = Redeemer.FetchOk market ->
    Redeemer.rawConditionId market = Some cid ->
    Redeemer.clobTokenIds market = Some (before ++ tokenId :: after) ->
    let slug := Redeemer.slugOfWindow env i in
    let rw := Redeemer.emit [Redeemer.EvSleep 2000]
                (Redeemer.noteResolution env i slug market
                   (Redeemer.emit [Redeemer.EvFetch slug] r1)) in
    Redeemer.sweepTokens env funder i 0 slug cid before rw = Redeemer.Continue r2 ->
    Redeemer.balanceOf env i (length before) = Some bal ->
    (0 < bal)%Z ->
    Redeemer.proxy env i (length before) = Threw err ->
    let reason := Redeemer.recognizedReason err in
    let attempt := [Redeemer.EvBalanceOf funder tokenId;
                    Redeemer.EvLog (Redeemer.foundText slug cid bal);
                    Redeemer.EvSleep 3000;
                    Redeemer.EvRedeem slug cid tokenId] in
    (includes "insufficient funds" reason = true ->
       let final := Redeemer.runRedemptionSweep env funder log in
       Redeemer.trace final
       = Redeemer.trace r2 ++ attempt ++ [Redeemer.EvLog Redeemer.OUT_OF_GAS]
       /\ Redeemer.ledger final = Redeemer.ledger r2)
    /\ (includes "insufficient funds" reason = false ->
        exists r3,
          Redeemer.trace r3
          = Redeemer.trace r2 ++ attempt
            ++ [Redeemer.EvLog (Redeemer.failedOn slug reason); Redeemer.EvSleep 5000]
          /\ Redeemer.ledger r3 = Redeemer.ledger r2
          /\ Redeemer.redeemedCount r3 = Redeemer.redeemedCount r2
          /\ Redeemer.sweepWindow env funder i r1
             = Redeemer.sweepTokens env funder i (S (length before)) slug cid after r3
          /\ forall r4,
               Redeemer.sweepTokens env funder i (S (length before)) slug cid after r3
               = Redeemer.Continue r4 ->
               Redeemer.sweepWindows env funder (seq 1 20) (Redeemer.startOf log)
               = Redeemer.sweepWindows env funder (seq (S i) (20 - i)) r4).
Proof.
  intros env funder log gas i market cid before tokenId after r1 r2 bal err
         Hconn Hgas Hmin Hi Hprefix Hfetch Hcid Htoks slug rw Hbefore Hbal Hpos
         Hthrow reason attempt.
  assert (Hwin : Redeemer.sweepWindow env funder i r1
                 = Redeemer.sweepTokens env funder i (length before) slug cid
                     (tokenId :: after) r2).
  { unfold Redeemer.sweepWindow. rewrite Hfetch, Hcid, Htoks.
    fold slug. fold rw. now rewrite sweepTokens_app, Hbefore. }
  rewrite (@sweepTokens_thrown env funder i (length before) slug cid tokenId
             after r2 bal err Hbal Hpos Hthrow) in Hwin.
  fold reason in Hwin.
  assert (Hall : Redeemer.sweepWindows env funder (seq 1 20) (Redeemer.startOf log)
                 = match Redeemer.sweepWindow env funder i r1 with
                   | Redeemer.Return r' => Redeemer.Return r'
                   | Redeemer.Continue r' =>
                       Redeemer.sweepWindows env funder (seq (S i) (20 - i)) r'
                   end).
  { rewrite (windows_split Hi), sweepWindows_app, Hprefix. reflexivity. }
  split; intros Hreason; rewrite Hreason in Hwin.
  - cbv zeta. unfold Redeemer.runRedemptionSweep.
    rewrite Hconn, Hgas.
    replace (Z.ltb gas Redeemer.MIN_GAS_WEI) with false
      by (symmetry; now apply Z.ltb_ge).
    rewrite Hall, Hwin. cbn [Redeemer.trace Redeemer.ledger Redeemer.emit].
    split; [| reflexivity].
    unfold attempt. now rewrite <- !app_assoc.
  - eexists. split; [| split; [| split; [| split; [exact Hwin |]]]].
    + cbn [Redeemer.trace Redeemer.emit]. unfold attempt.
      now rewrite <- !app_assoc.
    + reflexivity.
    + reflexivity.
    + intros r4 Hrest. now rewrite Hall, Hwin, Hrest.
Qed.

Lemma sweep_stops_only_on_insufficient_funds_witness :
  let final := Redeemer.runRedemptionSweep (Samples.sweepEnv (Threw Samples.gasError))
                 "0xfunder" None in
  Redeemer.ledger final
  = TradeLog.logResolution 2000010000 "btc-updown-15m-1998900" Guardrails.Up None
  /\ last (Redeemer.trace final) (Redeemer.EvSleep 0)
     = Redeemer.EvLog Redeemer.OUT_OF_GAS
  /\ length (Redeemer.trace final) = 8%nat.
Proof.
  destruct (@sweep_stops_only_on_insufficient_funds
              (Samples.sweepEnv (Threw Samples.gasError)) "0xfunder" None
              (10 ^ 18)%Z 1%nat Samples.resolvedMarket "0xabc"%string
              [] "tok-up"%string ["tok-down"%string] _ _ 5000000%Z Samples.gasError
              eq_refl eq_refl ltac:(discriminate) ltac:(lia) eq_refl eq_refl eq_refl
              eq_refl eq_refl eq_refl eq_refl eq_refl)
    as [Habort _].
  destruct (Habort eq_refl) as [Htrace Hledger].
  cbv zeta. rewrite Htrace, Hledger. repeat split.
Defined.

(** * Further properties of the code *)

(** ** Comparisons *)

Section NumFacts.

Lemma geb_spec a b : Num.geb a b = true <-> b <= a.
Proof. unfold Num.geb. apply Qle_bool_iff. Qed.


Lemma gtb_spec a b : Num.gtb a b = true <-> b < a.
Proof.
  unfold Num.gtb. destruct (Qle_bool a b) eqn:E; simpl.
  - apply Qle_bool_iff in E. split; [discriminate | lra].
  - split; [intros _ | reflexivity].
    apply Qnot_le_lt. intros H. apply Qle_bool_iff in H. congruence.
Qed.

Lemma gtb_false_spec a b : Num.gtb a b = false <-> a <= b.
Proof.
  unfold Num.gtb. destruct (Qle_bool a b) eqn:E; simpl.
  - apply Qle_bool_iff in E. tauto.
  - split; [discriminate|]. intros H. apply Qle_bool_iff in H. congruence.
Qed.

Lemma ltb_spec a b : Num.ltb a b = true <-> a < b.
Proof. apply (gtb_spec b a). Qed.


Lemma geb_false_spec a b : Num.geb a b = false <-> a < b.
Proof.
  unfold Num.geb. destruct (Qle_bool b a) eqn:E.
  - apply Qle_bool_iff in E. split; [discriminate | lra].
  - split; [intros _ | reflexivity].
    apply Qnot_le_lt. intros H. apply Qle_bool_iff in H. congruence.
Qed.

End NumFacts.

(** ** Guardrails *)

Section GuardrailMore.
Import Guardrails.
Import GuardrailsMore.

Lemma filter_twice (A : Type) (f : A -> bool) (l : list A) :
  filter f (filter f l) = filter f l.
Proof.
  induction l as [|a l IH]; simpl; auto.
  destruct (f a) eqn:E; simpl; rewrite ?E, IH; reflexivity.
Qed.

Lemma maybeResetDaily_same_day now st :
  lastResetDay st = utcDay now -> maybeResetDaily now st = st.
Proof.
  intros H. unfold maybeResetDaily. now rewrite H, Z.eqb_refl.
Qed.

Lemma lastResetDay_refresh now st : lastResetDay (refresh now st) = utcDay now.
Proof.
  unfold refresh, maybeResetDaily.
  destruct (Z.eqb (utcDay now) (lastResetDay st)) eqn:E; simpl; auto.
  symmetry. now apply Z.eqb_eq.
Qed.

Lemma refresh_idempotent now st : refresh now (refresh now st) = refresh now st.
Proof.
  unfold refresh at 1.
  rewrite maybeResetDaily_same_day by apply lastResetDay_refresh.
  unfold refresh, pruneHourlyTrades. cbn. now rewrite filter_twice.
Qed.

Lemma checkPreTrade_refresh now config cost st :
  checkPreTrade now config cost (refresh now st) = checkPreTrade now config cost st.
Proof.
  unfold checkPreTrade. fold (refresh now (refresh now st)). fold (refresh now st).
  now rewrite refresh_idempotent.
Qed.

Lemma get_set_other (V : Type) (m : JsMap.t V) k k' (v : V) :
  String.eqb k' k = false -> JsMap.get k' (JsMap.set k v m) = JsMap.get k' m.
Proof.
  intros Hne. induction m as [|[k0 v0] m IH]; simpl.
  - now rewrite Hne.
  - destruct (String.eqb k k0) eqn:E; simpl.
    + apply String.eqb_eq in E. subst k0. now rewrite Hne.
    + now rewrite IH.
Qed.

Lemma get_delete_other (V : Type) (m : JsMap.t V) k k' :
  String.eqb k' k = false -> JsMap.get k' (JsMap.delete k m) = JsMap.get k' m.
Proof.
  intros Hne. unfold JsMap.delete.
  induction m as [|[k0 v0] m IH]; simpl; auto.
  destruct (String.eqb k k0) eqn:E; simpl.
  - apply String.eqb_eq in E. subst k0. now rewrite Hne.
  - now rewrite IH.
Qed.

End GuardrailMore.

Lemma allowed_iff :
  forall now config cost st,
    let st' := GuardrailsMore.refresh now st in
    Guardrails.allowed (fst (Guardrails.checkPreTrade now config cost st)) = true
    <-> (Guardrails.killswitch st = false
         /\ Config.enabled config = true
         /\ cost <= Config.maxOrderSize config
         /\ Guardrails.totalExposure st + cost <= Config.maxPositionSize config
         /\ ~ (Guardrails.dailyPnl st' < 0
               /\ Config.maxDailyLoss config <= Qabs (Guardrails.dailyPnl st'))
         /\ Num.ofNat (length (Guardrails.hourlyTrades st'))
            < Config.maxTradesPerHour config).
Proof.
  intros now config cost st. cbv zeta. unfold Guardrails.checkPreTrade.
  fold (GuardrailsMore.refresh now st).
  assert (Hk : Guardrails.killswitch (GuardrailsMore.refresh now st)
               = Guardrails.killswitch st)
    by apply killswitch_refresh.
  assert (He : Guardrails.totalExposure (GuardrailsMore.refresh now st)
               = Guardrails.totalExposure st)
    by apply exposure_refresh.
  rewrite Hk, He.
  generalize (GuardrailsMore.refresh now st). intros st'.
  destruct (Guardrails.killswitch st); [simpl; split; [discriminate | intuition discriminate]|].
  destruct (Config.enabled config); [| simpl; split; [discriminate | intuition discriminate]].
  cbn [negb].
  destruct (Num.gtb cost (Config.maxOrderSize config)) eqn:E1.
  { apply gtb_spec in E1. simpl. split; [discriminate|]. intros (_ & _ & H & _). lra. }
  apply gtb_false_spec in E1.
  destruct (Num.gtb (Guardrails.totalExposure st + cost) _) eqn:E2.
  { apply gtb_spec in E2. simpl. split; [discriminate|]. intros (_ & _ & _ & H & _). lra. }
  apply gtb_false_spec in E2.
  destruct (Num.geb (Qabs (Guardrails.dailyPnl st')) _ && Num.ltb (Guardrails.dailyPnl st') 0) eqn:E3.
  { apply andb_prop in E3 as [Ea Eb]. apply geb_spec in Ea. apply ltb_spec in Eb.
    simpl. split; [discriminate|]. intros (_ & _ & _ & _ & H & _). tauto. }
  assert (H3 : ~ (Guardrails.dailyPnl st' < 0
                  /\ Config.maxDailyLoss config <= Qabs (Guardrails.dailyPnl st'))).
  { intros [Ha Hb]. apply ltb_spec in Ha. apply geb_spec in Hb.
    rewrite Ha, Hb in E3. discriminate. }
  destruct (Num.geb (Num.ofNat _) _) eqn:E4.
  { apply geb_spec in E4. simpl. split; [discriminate|]. intros (_ & _ & _ & _ & _ & H). lra. }
  apply geb_false_spec in E4. simpl. tauto.
Qed.

(** X1. [checkPreTrade] allows an order exactly when, after the daily reset
    and the pruning of the hourly list, the killswitch is off, trading is
    enabled, the cost is within the order cap, exposure plus cost is within
    the position cap, the day's loss is below the daily cap, and fewer
    trades than the hourly cap lie within the last hour. *)
Theorem checkPreTrade_allows_iff :
  forall now config cost st,
    let st' := GuardrailsMore.refresh now st in
    Guardrails.allowed (fst (Guardrails.checkPreTrade now config cost st)) = true
    <-> (Guardrails.killswitch st = false
         /\ Config.enabled config = true
         /\ cost <= Config.maxOrderSize config
         /\ Guardrails.totalExposure st + cost <= Config.maxPositionSize config
         /\ ~ (Guardrails.dailyPnl st' < 0
               /\ Config.maxDailyLoss config <= Qabs (Guardrails.dailyPnl st'))
         /\ Num.ofNat (length (Guardrails.hourlyTrades st'))
            < Config.maxTradesPerHour config).
Proof. exact allowed_iff. Qed.

(** X2. [checkPreTrade] only does housekeeping on the state: exposure, open
    positions and killswitch are the ones it found, and asking again at the
    same instant gives the same answer and the same state. *)
Theorem checkPreTrade_housekeeping_only :
  forall now config cost st,
    let st' := snd (Guardrails.checkPreTrade now config cost st) in
    Guardrails.totalExposure st' = Guardrails.totalExposure st
    /\ Guardrails.openPositions st' = Guardrails.openPositions st
    /\ Guardrails.killswitch st' = Guardrails.killswitch st
    /\ Guardrails.checkPreTrade now config cost st'
       = Guardrails.checkPreTrade now config cost st.
Proof.
  intros now config cost st. cbv zeta. rewrite checkPreTrade_state.
  split; [| split; [| split]].
  - apply exposure_refresh.
  - apply positions_refresh.
  - apply killswitch_refresh.
  - apply checkPreTrade_refresh.
Qed.

Section GuardrailBooks.
Import Guardrails.
Import GuardrailsMore.

Lemma loss_threshold d : (Num.ltb d 0 && Num.geb (Qabs d) 25 = true) <-> d <= - (25).
Proof.
  rewrite andb_true_iff, ltb_spec, geb_spec. split.
  - intros [Hneg Habs]. rewrite Qabs_neg in Habs by lra. lra.
  - intros H. split; [lra|]. rewrite Qabs_neg by lra. lra.
Qed.

Lemma Forall_set (V : Type) (P : string * V -> Prop) (m : JsMap.t V) k v :
  P (k, v) -> Forall P m -> Forall P (JsMap.set k v m).
Proof.
  intros Hp. induction 1 as [|[k0 v0] m H0 Hm IH]; simpl.
  - now constructor.
  - destruct (String.eqb k k0); constructor; auto.
Qed.

Lemma Forall_delete (V : Type) (P : string * V -> Prop) (m : JsMap.t V) k :
  Forall P m -> Forall P (JsMap.delete k m).
Proof.
  unfold JsMap.delete. induction 1 as [|[k0 v0] m H0 Hm IH]; simpl; auto.
  destruct (negb _); auto.
Qed.


Lemma Keyed_fresh now : Keyed (createFreshState now).
Proof. split; simpl; constructor. Qed.

Lemma Keyed_runOp op st : Keyed st -> Keyed (runOp op st).
Proof.
  intros [Hnd Hkeys]. destruct op; cbn [runOp].
  - rewrite checkPreTrade_state. unfold Keyed. now rewrite positions_refresh.
  - split; simpl; [now apply NoDup_keys_set | now apply Forall_set].
  - unfold recordClose. destruct (JsMap.get cid (openPositions st)); [| now split].
    split; simpl; [now apply NoDup_keys_delete | now apply Forall_delete].
  - now split.
  - now split.
  - unfold getGuardrailState. cbn [snd]. unfold Keyed. now rewrite positions_refresh.
  - apply Keyed_fresh.
Qed.

Lemma Keyed_runOps ops : forall st, Keyed st -> Keyed (runOps ops st).
Proof.
  induction ops as [|op ops IH]; simpl; intros st H; auto.
  apply IH. now apply Keyed_runOp.
Qed.

Lemma find_by_conditionId m k :
  Forall (fun kv : string * PositionRecord => conditionId (snd kv) = fst kv) m ->
  find (fun p => String.eqb (conditionId p) k) (JsMap.values m) = JsMap.get k m.
Proof.
  induction 1 as [|[k0 p0] m H0 Hm IH]; simpl; auto.
  simpl in H0. rewrite H0, (String.eqb_sym k0 k).
  destruct (String.eqb k k0); auto.
Qed.


End GuardrailBooks.

Section GuardrailCover.
Import Guardrails.
Import GuardrailsMore.






End GuardrailCover.

(** X3. Closing an open position books proceeds minus cost basis into the
    daily profit and loss, takes the cost basis off the exposure, and
    leaves the killswitch set exactly when it was set before or the new
    daily profit and loss is -25 or lower; the configured daily loss cap
    plays no part. *)
Theorem recordClose_books_and_trips :
  forall st k proceeds pos,
    JsMap.get k (Guardrails.openPositions st) = Some pos ->
    let st' := Guardrails.recordClose k proceeds st in
    Guardrails.dailyPnl st'
    = Guardrails.dailyPnl st + (proceeds - Guardrails.costBasis pos)
    /\ Guardrails.totalExposure st'
       = Guardrails.totalExposure st - Guardrails.costBasis pos
    /\ (Guardrails.killswitch st' = true
        <-> Guardrails.killswitch st = true
            \/ Guardrails.dailyPnl st + (proceeds - Guardrails.costBasis pos)
               <= - (25)).
Proof.
  intros st k proceeds pos G. cbv zeta. unfold Guardrails.recordClose. rewrite G.
  cbn [Guardrails.dailyPnl Guardrails.totalExposure Guardrails.killswitch].
  split; [reflexivity | split; [reflexivity |]].
  destruct (Num.ltb _ 0 && Num.geb _ 25) eqn:E.
  - apply loss_threshold in E. tauto.
  - split; [tauto|]. intros [H | H]; [assumption|].
    apply loss_threshold in H. congruence.
Qed.

Lemma recordClose_books_and_trips_witness :
  let st' := Guardrails.recordClose "0xabc" (- (18)) Samples.halted in
  Guardrails.dailyPnl st' = - (3) + (- (18) - 5)
  /\ Guardrails.totalExposure st' = 5 - 5
  /\ (Guardrails.killswitch st' = true
      <-> Guardrails.killswitch Samples.halted = true
          \/ - (3) + (- (18) - 5) <= - (25)).
Proof.
  apply (@recordClose_books_and_trips Samples.halted "0xabc" (- (18))
           (Samples.position "0xabc" 5)).
  reflexivity.
Defined.

(** X4. Lookup after the two bookkeeping operations: [recordTrade] stores
    the position under its conditionId and [recordClose] removes the entry
    of its key; every other key reads as before. *)
Theorem openPositions_lookup :
  forall now p k proceeds k' st,
    JsMap.get k' (Guardrails.openPositions (Guardrails.recordTrade now p st))
    = (if String.eqb k' (Guardrails.conditionId p) then Some p
       else JsMap.get k' (Guardrails.openPositions st))
    /\ JsMap.get k' (Guardrails.openPositions (Guardrails.recordClose k proceeds st))
       = (if String.eqb k' k then None
          else JsMap.get k' (Guardrails.openPositions st)).
Proof.
  intros now p k proceeds k' st. split.
  - cbn [Guardrails.recordTrade Guardrails.openPositions].
    destruct (String.eqb k' (Guardrails.conditionId p)) eqn:E.
    + apply String.eqb_eq in E. subst k'. apply get_set_same.
    + now apply get_set_other.
  - unfold Guardrails.recordClose.
    destruct (JsMap.get k (Guardrails.openPositions st)) as [pos|] eqn:G.
    + cbn [Guardrails.openPositions].
      destruct (String.eqb k' k) eqn:E.
      * apply String.eqb_eq in E. subst k'. apply get_delete_same.
      * now apply get_delete_other.
    + destruct (String.eqb k' k) eqn:E; auto.
      apply String.eqb_eq in E. now subst k'.
Qed.

(** X5. In every state reached from a fresh one the keys of the map of open
    positions are unique and each is the conditionId of its position, so
    the search of [positionsList] by conditionId that evaluateMarket does
    finds what [Map.get] finds. *)
Theorem positions_keyed_by_conditionId :
  forall now ops k,
    let st := Guardrails.runOps ops (Guardrails.createFreshState now) in
    GuardrailsMore.Keyed st
    /\ find (fun p => String.eqb (Guardrails.conditionId p) k)
            (JsMap.values (Guardrails.openPositions st))
       = JsMap.get k (Guardrails.openPositions st).
Proof.
  intros now ops k. cbv zeta.
  pose proof (Keyed_runOps ops (Keyed_fresh now)) as HK.
  split; [exact HK|]. apply find_by_conditionId. apply HK.
Qed.



(** X7. At the first check after the UTC day has changed the daily profit
    and loss, the daily count and the hourly list start from zero, trades
    of the last hour included: the order is allowed exactly when the
    killswitch is off, trading is enabled, the two size caps hold and the
    hourly cap is positive. *)
Theorem checkPreTrade_after_rollover :
  forall now config cost st,
    Guardrails.utcDay now <> Guardrails.lastResetDay st ->
    let st' := snd (Guardrails.checkPreTrade now config cost st) in
    Guardrails.dailyPnl st' = 0
    /\ Guardrails.dailyTradeCount st' = 0%Z
    /\ Guardrails.hourlyTrades st' = []
    /\ Guardrails.lastResetDay st' = Guardrails.utcDay now
    /\ (Guardrails.allowed (fst (Guardrails.checkPreTrade now config cost st)) = true
        <-> (Guardrails.killswitch st = false
             /\ Config.enabled config = true
             /\ cost <= Config.maxOrderSize config
             /\ Guardrails.totalExposure st + cost <= Config.maxPositionSize config
             /\ 0 < Config.maxTradesPerHour config)).
Proof.
  intros now config cost st Hday. cbv zeta.
  assert (Hst : GuardrailsMore.refresh now st
                = {| Guardrails.dailyPnl := 0;
                     Guardrails.dailyTradeCount := 0;
                     Guardrails.hourlyTrades := [];
                     Guardrails.totalExposure := Guardrails.totalExposure st;
                     Guardrails.openPositions := Guardrails.openPositions st;
                     Guardrails.killswitch := Guardrails.killswitch st;
                     Guardrails.lastResetDay := Guardrails.utcDay now |}).
  { unfold GuardrailsMore.refresh, Guardrails.maybeResetDaily.
    destruct (Z.eqb (Guardrails.utcDay now) (Guardrails.lastResetDay st)) eqn:E.
    - apply Z.eqb_eq in E. contradiction.
    - reflexivity. }
  rewrite checkPreTrade_state. fold (GuardrailsMore.refresh now st).
  rewrite allowed_iff. cbv zeta. rewrite Hst.
  cbn [Guardrails.dailyPnl Guardrails.dailyTradeCount Guardrails.hourlyTrades
       Guardrails.lastResetDay length].
  split; [reflexivity | split; [reflexivity | split; [reflexivity | split; [reflexivity |]]]].
  unfold Num.ofNat. simpl Z.of_nat.
  split.
  - intros (H1 & H2 & H3 & H4 & _ & H6). auto.
  - intros (H1 & H2 & H3 & H4 & H5). repeat (split; auto).
    intros [Hneg _]. revert Hneg. apply Qlt_irrefl.
Qed.

Lemma checkPreTrade_after_rollover_witness :
  Guardrails.hourlyTrades
    (snd (Guardrails.checkPreTrade 90000000 Samples.liveConfig 5 Samples.halted))
  = [].
Proof.
  refine (proj1 (proj2 (proj2 (@checkPreTrade_after_rollover 90000000
            Samples.liveConfig 5 Samples.halted _)))).
  discriminate.
Defined.

(** ** Trade log *)

Section LedgerMore.
Import TradeLog.

Lemma scanBack_true type slug ls :
  scanBack type slug ls = true <->
  exists before e after,
    ls = before ++ Parsed e :: after
    /\ entryType e = type /\ entrySlug e = slug
    /\ forallb parses before = true.
Proof.
  induction ls as [|l ls IH]; simpl.
  - split; [discriminate|]. intros (before & e & after & H & _).
    destruct before; discriminate.
  - assert (Hskip : parses l = true ->
              matches type slug l = false ->
              (scanBack type slug ls = true <->
               exists before e after,
                 l :: ls = before ++ Parsed e :: after
                 /\ entryType e = type /\ entrySlug e = slug
                 /\ forallb parses before = true)).
    { intros Hl Hm. rewrite IH. split.
      - intros (before & e & after & -> & Ht & Hs & Hp).
        exists (l :: before), e, after. simpl. rewrite Hl. auto.
      - intros (before & e & after & Heq & Ht & Hs & Hp).
        destruct before as [|b before]; simpl in *.
        + injection Heq as -> ->. simpl in Hm.
          rewrite Ht, Hs, !String.eqb_refl in Hm. discriminate.
        + injection Heq as -> ->. apply andb_prop in Hp as [_ Hp].
          exists before, e, after. auto. }
    destruct l as [| | |e0].
    + now apply Hskip.
    + split; [discriminate|]. intros (before & e & after & Heq & _ & _ & Hp).
      destruct before as [|b before]; simpl in *; [discriminate|].
      injection Heq as <- _. discriminate.
    + now apply Hskip.
    + destruct (String.eqb (entryType e0) type && String.eqb (entrySlug e0) slug) eqn:E.
      * split; [intros _ | reflexivity].
        apply andb_prop in E as [Et Es].
        apply String.eqb_eq in Et. apply String.eqb_eq in Es.
        exists [], e0, ls. simpl. auto.
      * now apply Hskip.
Qed.


End LedgerMore.

(** X8. [hasEntry] answers [true] exactly when the file exists and holds an
    entry of the wanted type and slug with no line after it that fails to
    parse; blank lines and foreign values are skipped, and a missing file,
    an empty file or an unparsable line behind the entry give [false]. *)
Theorem hasEntry_true_iff :
  forall type slug f,
    TradeLog.hasEntry type slug f = true <->
    exists before e after,
      f = Some (before ++ TradeLog.Parsed e :: after)
      /\ TradeLog.entryType e = type /\ TradeLog.entrySlug e = slug
      /\ forallb TradeLog.parses after = true.
Proof.
  intros type slug [ls|]; simpl.
  - rewrite scanBack_true. split.
    + intros (a & e & b & Heq & Ht & Hs & Hp).
      exists (rev b), e, (rev a). rewrite forallb_rev. repeat split; auto.
      f_equal. rewrite <- (rev_involutive ls), Heq, rev_app_distr. simpl.
      now rewrite <- app_assoc.
    + intros (before & e & after & Heq & Ht & Hs & Hp).
      injection Heq as ->.
      exists (rev after), e, (rev before). rewrite forallb_rev. repeat split; auto.
      rewrite rev_app_distr. simpl. now rewrite <- app_assoc.
  - split; [discriminate|]. intros (before & e & after & H & _). discriminate.
Qed.


(** ** Executor *)

Section ExecutorMore.
Import Executor.
Import ExecutorSell.

Lemma toTickSize_valid raw : In (toTickSize raw) VALID_TICK_SIZES.
Proof.
  unfold toTickSize. destruct (existsb (String.eqb raw) VALID_TICK_SIZES) eqn:E.
  - apply existsb_exists in E as [x [Hin Heq]].
    apply String.eqb_eq in Heq. now subst.
  - simpl. tauto.
Qed.

(** The paths of [executeBuy], one after the other. *)
Ltac buy_paths env sig market config w :=
  unfold executeBuy, carried;
  destruct (Strategy.outcome sig) as [o|];
  [ destruct (Strategy.suggestedSize sig) as [size|];
    [ destruct (Strategy.suggestedPrice sig) as [price|];
      [ destruct (Num.falsy size || Num.falsy price);
        [ | destruct (TradeLog.hasBoughtSlug (MarketDiscovery.slug market) (ledger w)) eqn:Hseen;
            [ | destruct (Guardrails.checkPreTrade (timeOfCheck env) config
                            (size * price) (guard w)) as [check g] eqn:Hcheck;
                destruct (Guardrails.allowed check) eqn:Hallowed; cbn [negb];
                [ destruct (Config.dryRun config) eqn:Hdry;
                  [ | destruct (isClientReady env) eqn:Hready; cbn [negb];
                      [ match goal with
                        | |- context [createAndPostOrder env ?r] =>
                            destruct (createAndPostOrder env r) as [response | err] eqn:Hpost
                        end;
                        [ match goal with
                          | |- context [String.eqb ?st "matched" || String.eqb ?st' "live"] =>
                              destruct (String.eqb st "matched" || String.eqb st' "live") eqn:Hfilled
                          end | ] | ] ] | ] ] ] | ] | ] | ].

Lemma checkPreTrade_pair now config cost st check g :
  Guardrails.checkPreTrade now config cost st = (check, g) ->
  g = GuardrailsMore.refresh now st
  /\ check = fst (Guardrails.checkPreTrade now config cost st).
Proof.
  intros H. split.
  - change g with (snd (check, g)). rewrite <- H. apply checkPreTrade_state.
  - now rewrite H.
Qed.

Lemma executeBuy_failure env sig market config w :
  success (fst (executeBuy env sig market config w)) = false ->
  ledger (snd (executeBuy env sig market config w)) = ledger w
  /\ logs (snd (executeBuy env sig market config w)) = logs w
  /\ (guard (snd (executeBuy env sig market config w)) = guard w
      \/ guard (snd (executeBuy env sig market config w))
         = GuardrailsMore.refresh (timeOfCheck env) (guard w)).
Proof.
  buy_paths env sig market config w; cbn; intros H; try discriminate H;
    try (apply checkPreTrade_pair in Hcheck as [-> _]); auto.
Qed.

Lemma executeBuy_success env sig market config w :
  success (fst (executeBuy env sig market config w)) = true ->
  exists o size price oid,
    carried sig = Some (o, size, price)
    /\ TradeLog.hasBoughtSlug (MarketDiscovery.slug market) (ledger w) = false
    /\ Guardrails.allowed
         (fst (Guardrails.checkPreTrade (timeOfCheck env) config (size * price)
                 (guard w))) = true
    /\ guard (snd (executeBuy env sig market config w))
       = Guardrails.recordTrade (timeOfRecord env)
           (positionOf env market o price size (size * price))
           (GuardrailsMore.refresh (timeOfCheck env) (guard w))
    /\ ledger (snd (executeBuy env sig market config w))
       = TradeLog.logBuy (timeOfRecord env) (MarketDiscovery.slug market)
           (MarketDiscovery.outcome o) price size (size * price) oid (ledger w).
Proof.
  buy_paths env sig market config w; cbn; intros H; try discriminate H;
    apply checkPreTrade_pair in Hcheck as [-> ->];
    eexists _, _, _, _; (split; [reflexivity|]);
    (split; [reflexivity|]); (split; [assumption|]); split; reflexivity.
Qed.

Lemma executeBuy_orders env sig market config w :
  orders (snd (executeBuy env sig market config w)) = orders w
  \/ exists o size price,
       carried sig = Some (o, size, price)
       /\ Config.dryRun config = false
       /\ isClientReady env = true
       /\ TradeLog.hasBoughtSlug (MarketDiscovery.slug market) (ledger w) = false
       /\ Guardrails.allowed
            (fst (Guardrails.checkPreTrade (timeOfCheck env) config (size * price)
                    (guard w))) = true
       /\ orders (snd (executeBuy env sig market config w))
          = orders w ++ [{| tokenID := MarketDiscovery.tokenId o;
                            orderPrice := price; orderSize := size;
                            side := SideBUY;
                            orderTickSize := toTickSize (MarketDiscovery.tickSize market);
                            orderNegRisk := MarketDiscovery.negRisk market |}].
Proof.
  buy_paths env sig market config w; cbn; auto;
    apply checkPreTrade_pair in Hcheck as [-> ->];
    right; eexists _, _, _; repeat (split; [reflexivity || assumption|]);
    reflexivity.
Qed.

End ExecutorMore.





(** X12. One call of [executeBuy] hands at most one order to the exchange,
    after whatever was handed over before: none in dry-run mode, none
    without a ready client, a complete signal, a ledger without a buy for
    the slug and the consent of the guardrails; the order that goes out is
    a BUY of the signalled token at the signalled price and size with one
    of the four valid tick sizes. *)
Theorem executeBuy_at_most_one_order :
  forall env sig market config w,
    let w' := snd (Executor.executeBuy env sig market config w) in
    (Config.dryRun config = true -> Executor.orders w' = Executor.orders w)
    /\ (Executor.orders w' = Executor.orders w
        \/ exists o size price req,
             ExecutorSell.carried sig = Some (o, size, price)
             /\ Executor.isClientReady env = true
             /\ TradeLog.hasBoughtSlug (MarketDiscovery.slug market)
                  (Executor.ledger w) = false
             /\ Guardrails.allowed
                  (fst (Guardrails.checkPreTrade (Executor.timeOfCheck env) config
                          (size * price) (Executor.guard w))) = true
             /\ Executor.orders w' = Executor.orders w ++ [req]
             /\ Executor.side req = Executor.SideBUY
             /\ Executor.tokenID req = MarketDiscovery.tokenId o
             /\ Executor.orderPrice req = price
             /\ Executor.orderSize req = size
             /\ In (Executor.orderTickSize req) Executor.VALID_TICK_SIZES).
Proof.
  intros env sig market config w. cbv zeta.
  destruct (executeBuy_orders env sig market config w)
    as [Hsame | (o & size & price & Hsig & Hdry & Hready & Hseen & Hallowed & Hord)].
  - auto.
  - split; [intros Hd; congruence|]. right.
    eexists o, size, price, _.
    repeat (split; [eassumption|]).
    cbn. repeat (split; [reflexivity|]). apply toTickSize_valid.
Qed.

Lemma second_buy_rejected_witness :
  let w1 := snd (Executor.executeBuy Samples.execEnv Samples.buySignal Samples.market
                   Samples.liveConfig MoreSamples.freshWorld) in
  Executor.success
    (fst (Executor.executeBuy Samples.execEnv Samples.buySignal Samples.market
            MoreSamples.tradingConfig (Executor.restart 1300000 w1))) = false.
Proof.
  destruct (@second_buy_rejected Samples.execEnv Samples.execEnv Samples.buySignal
              Samples.buySignal Samples.market Samples.liveConfig
              MoreSamples.tradingConfig MoreSamples.freshWorld eq_refl eq_refl)
    as [_ H].
  exact (proj2 (H 1300000%Z)).
Defined.

Section SellFacts.
Import Executor.
Import ExecutorSell.

(** X13. [executeSell] asks neither the guardrails nor the ledger.  It never
    writes the ledger; when it fails the guardrail state and the log are
    untouched; when it succeeds the guardrail state is the one found after
    [recordClose] of the market's conditionId with proceeds size times
    price, whatever the killswitch and the enabled flag say; in dry-run
    mode every complete signal succeeds and no order goes out. *)
Theorem executeSell_closes_without_checks :
  forall env sig market config w,
    let r := ExecutorSell.executeSell env sig market config w in
    Executor.ledger (snd r) = Executor.ledger w
    /\ (Executor.success (fst r) = false ->
        Executor.guard (snd r) = Executor.guard w
        /\ Executor.logs (snd r) = Executor.logs w)
    /\ (Executor.success (fst r) = true ->
        exists o size price,
          ExecutorSell.carried sig = Some (o, size, price)
          /\ Executor.guard (snd r)
             = Guardrails.recordClose (MarketDiscovery.conditionId market)
                 (size * price) (Executor.guard w))
    /\ (Config.dryRun config = true ->
        Executor.orders (snd r) = Executor.orders w
        /\ (ExecutorSell.carried sig <> None ->
            Executor.success (fst r) = true)).
Proof.
  intros env sig market config w. cbv zeta.
  unfold ExecutorSell.executeSell, ExecutorSell.carried.
  destruct (Strategy.outcome sig) as [o|];
    [| cbn; repeat split; try discriminate; auto; intros; congruence].
  destruct (Strategy.suggestedSize sig) as [size|];
    [| cbn; repeat split; try discriminate; auto; intros; congruence].
  destruct (Strategy.suggestedPrice sig) as [price|];
    [| cbn; repeat split; try discriminate; auto; intros; congruence].
  destruct (Num.falsy size || Num.falsy price);
    [cbn; repeat split; try discriminate; auto; intros; congruence|].
  destruct (Config.dryRun config).
  - cbn. split; [reflexivity|]. split; [discriminate|].
    split; [intros _; now exists o, size, price|]. auto.
  - destruct (isClientReady env); cbn [negb].
    + match goal with
      | |- context [createAndPostOrder env ?r] =>
          destruct (createAndPostOrder env r) as [response | err]
      end.
      * match goal with
        | |- context [String.eqb ?st "matched" || String.eqb ?st' "live"] =>
            destruct (String.eqb st "matched" || String.eqb st' "live")
        end; cbn.
        -- split; [reflexivity|]. split; [discriminate|].
           split; [intros _; now exists o, size, price|]. discriminate.
        -- split; [reflexivity|]. split; [auto|]. split; discriminate.
      * cbn. split; [reflexivity|]. split; [auto|]. split; discriminate.
    + cbn. split; [reflexivity|]. split; [auto|]. split; discriminate.
Qed.

End SellFacts.

(** ** Strategy and tick *)

Section TickFacts.
Import MarketDiscovery.
Import Strategy.
Import TraderService.

Lemma evaluateMarket_eq now mkt config st :
  evaluateMarket now mkt config st
  = (match find (fun p => String.eqb (Guardrails.conditionId p) (conditionId mkt))
                (JsMap.values (Guardrails.openPositions st)) with
     | Some p => evaluateExit mkt p config
     | None => evaluateEntry mkt config
     end,
     GuardrailsMore.refresh now st).
Proof.
  unfold evaluateMarket, Guardrails.getGuardrailState.
  cbn [Guardrails.positionsList]. rewrite positions_refresh.
  now destruct (find _ _).
Qed.

Lemma evaluateExit_signal mkt p config :
  Strategy.signal (evaluateExit mkt p config) = SELL
  \/ Strategy.signal (evaluateExit mkt p config) = HOLD.
Proof.
  unfold evaluateExit. destruct (find _ _); [| now right].
  destruct (Num.geb _ _); [now left|].
  destruct (_ && _); [now left | now right].
Qed.

Lemma evaluateEntry_signal mkt config :
  Strategy.signal (evaluateEntry mkt config) = BUY
  \/ Strategy.signal (evaluateEntry mkt config) = WAIT.
Proof.
  unfold evaluateEntry. destruct (closed mkt); [now right|].
  destruct (negb _).
  - destruct (Num.gtb _ _); now right.
  - destruct (getLeadingOutcome mkt); [| now right].
    destruct (Num.ltb _ _); [now right|].
    destruct (Num.leb _ _); [now right | now left].
Qed.

Lemma executeBuy_killswitch env sig mkt config w :
  Guardrails.killswitch (Executor.guard (snd (Executor.executeBuy env sig mkt config w)))
  = Guardrails.killswitch (Executor.guard w).
Proof.
  destruct (Executor.success (fst (Executor.executeBuy env sig mkt config w))) eqn:E.
  - apply executeBuy_success in E
      as (o & size & price & oid & _ & _ & _ & -> & _).
    cbn [Guardrails.recordTrade Guardrails.killswitch].
    unfold GuardrailsMore.refresh. apply killswitch_refresh.
  - apply executeBuy_failure in E as (_ & _ & [-> | ->]); auto.
    unfold GuardrailsMore.refresh. apply killswitch_refresh.
Qed.

(** X14. A tick sets the killswitch only in its catch branch, when market
    discovery throws with a message that contains "insufficient" or
    "balance"; in every other tick the flag is the one found, also when
    the exchange throws such a message inside [executeBuy], which turns it
    into a failed result. *)
Theorem tick_killswitch :
  forall env config s,
    Guardrails.killswitch
      (Executor.guard (TraderService.world (snd (TraderService.tick env config s))))
    = Guardrails.killswitch (Executor.guard (TraderService.world s))
      || match TraderService.discoverCurrentMarket env with
         | Threw err =>
             includes "insufficient" (Executor.thrownText err)
             || includes "balance" (Executor.thrownText err)
         | Ok _ => false
         end.
Proof.
  intros env config s.
  unfold tick. destruct (discoverCurrentMarket env) as [[mkt|] | err].
  - rewrite orb_false_r. destruct (closed mkt); [reflexivity|].
    rewrite evaluateMarket_eq.
    match goal with |- context [Strategy.signal ?sg] => set (sig := sg) end.
    destruct (Strategy.signal sig); cbn; try apply killswitch_refresh.
    match goal with |- context [Executor.executeBuy ?e ?sg ?m ?c ?w0] =>
      pose proof (executeBuy_killswitch e sg m c w0) as Hk;
      destruct (Executor.executeBuy e sg m c w0) as [res w1]
    end.
    cbn in Hk. rewrite killswitch_maybeResetDaily in Hk.
    destruct (negb (Executor.success res)); cbn; exact Hk.
  - now rewrite orb_false_r.
  - destruct (_ || _); cbn; [now rewrite orb_true_r | now rewrite orb_false_r].
Qed.

End TickFacts.

Section TickPositions.
Import MarketDiscovery.
Import Strategy.

Lemma positions_maybeResetDaily now st :
  Guardrails.openPositions (Guardrails.maybeResetDaily now st)
  = Guardrails.openPositions st.
Proof. unfold Guardrails.maybeResetDaily. now destruct (negb _). Qed.

Lemma exposure_maybeResetDaily now st :
  Guardrails.totalExposure (Guardrails.maybeResetDaily now st)
  = Guardrails.totalExposure st.
Proof. unfold Guardrails.maybeResetDaily. now destruct (negb _). Qed.

(** Housekeeping leaves positions and exposure alone. *)
Ltac housekeeping :=
  unfold GuardrailsMore.refresh; cbn;
  repeat first [ rewrite positions_refresh | rewrite exposure_refresh
               | rewrite positions_maybeResetDaily
               | rewrite exposure_maybeResetDaily ].

(** X15. While a position is open for the market's conditionId a tick does
    nothing with it: it neither orders nor writes the ledger, and the open
    positions and the exposure stay as they are, also when the exit
    evaluation signals SELL, which the service only logs. *)
Theorem tick_leaves_open_position :
  forall env config s mkt pos,
    TraderService.discoverCurrentMarket env = Ok (Some mkt) ->
    GuardrailsMore.Keyed (Executor.guard (TraderService.world s)) ->
    JsMap.get (MarketDiscovery.conditionId mkt)
      (Guardrails.openPositions (Executor.guard (TraderService.world s)))
    = Some pos ->
    let r := TraderService.tick env config s in
    TraderService.execution (fst r) = None
    /\ Executor.orders (TraderService.world (snd r))
       = Executor.orders (TraderService.world s)
    /\ Executor.ledger (TraderService.world (snd r))
       = Executor.ledger (TraderService.world s)
    /\ Guardrails.openPositions (Executor.guard (TraderService.world (snd r)))
       = Guardrails.openPositions (Executor.guard (TraderService.world s))
    /\ Guardrails.totalExposure (Executor.guard (TraderService.world (snd r)))
       = Guardrails.totalExposure (Executor.guard (TraderService.world s)).
Proof.
  intros env config s mkt pos. cbv zeta.
  intros Hd [_ Hkeys] Hget. unfold TraderService.tick. rewrite Hd.
  destruct (closed mkt); [cbn; auto|].
  rewrite evaluateMarket_eq, find_by_conditionId, Hget by assumption.
  destruct (evaluateExit_signal mkt pos config) as [-> | ->]; housekeeping; auto.
Qed.

(** X16. A tick never closes or replaces a position: in a state whose keys
    are the conditionIds of their positions, every position open before
    the tick is open, unchanged, after it. *)
Theorem tick_keeps_positions :
  forall env config s k p,
    GuardrailsMore.Keyed (Executor.guard (TraderService.world s)) ->
    JsMap.get k (Guardrails.openPositions (Executor.guard (TraderService.world s)))
    = Some p ->
    JsMap.get k (Guardrails.openPositions
                   (Executor.guard (TraderService.world
                      (snd (TraderService.tick env config s)))))
    = Some p.
Proof.
  intros env config s k p.
  intros [_ Hkeys] Hget. unfold TraderService.tick.
  destruct (TraderService.discoverCurrentMarket env) as [[mkt|] | err].
  - destruct (closed mkt); [exact Hget|].
    rewrite evaluateMarket_eq, find_by_conditionId by assumption.
    destruct (JsMap.get (conditionId mkt) _) as [held|] eqn:Hheld.
    + destruct (evaluateExit_signal mkt held config) as [-> | ->];
        housekeeping; exact Hget.
    + destruct (evaluateEntry_signal mkt config) as [Hs | Hs]; rewrite Hs.
      * match goal with |- context [Executor.executeBuy ?e ?sg ?m ?c ?w0] =>
          pose proof (@executeBuy_success e sg m c w0) as Hok;
          pose proof (@executeBuy_failure e sg m c w0) as Hfail;
          destruct (Executor.executeBuy e sg m c w0) as [res w1]
        end.
        cbn [fst snd] in Hok, Hfail.
        assert (Hw1 : JsMap.get k (Guardrails.openPositions (Executor.guard w1))
                      = Some p).
        { destruct (Executor.success res).
          - destruct (Hok eq_refl) as (o & size & price & oid & _ & _ & _ & -> & _).
            cbn [Guardrails.recordTrade Guardrails.openPositions
                 Executor.positionOf Guardrails.conditionId].
            rewrite get_set_other.
            + housekeeping. exact Hget.
            + destruct (String.eqb k (conditionId mkt)) eqn:E; auto.
              apply String.eqb_eq in E. subst k. congruence.
          - destruct (Hfail eq_refl) as (_ & _ & [-> | ->]); housekeeping;
              exact Hget. }
        destruct (negb (Executor.success res)); exact Hw1.
      * housekeeping. exact Hget.
  - exact Hget.
  - destruct (_ || _); exact Hget.
Qed.

End TickPositions.

Lemma holdingService_keyed :
  GuardrailsMore.Keyed
    (Executor.guard (TraderService.world MoreSamples.holdingService)).
Proof.
  split; simpl.
  - repeat constructor. simpl. tauto.
  - repeat constructor.
Qed.

Lemma tick_leaves_open_position_witness :
  Strategy.signal
    (fst (Strategy.evaluateMarket 1680000 Samples.lateMarket Samples.liveConfig
            Samples.halted)) = Strategy.SELL
  /\ Executor.orders
       (TraderService.world
          (snd (TraderService.tick MoreSamples.tickEnv Samples.liveConfig
                  MoreSamples.holdingService))) = []
  /\ Guardrails.openPositions
       (Executor.guard
          (TraderService.world
             (snd (TraderService.tick MoreSamples.tickEnv Samples.liveConfig
                     MoreSamples.holdingService))))
     = Guardrails.openPositions Samples.halted.
Proof.
  split; [reflexivity|].
  destruct (@tick_leaves_open_position MoreSamples.tickEnv Samples.liveConfig
              MoreSamples.holdingService Samples.lateMarket
              (Samples.position "0xabc" 5) eq_refl holdingService_keyed eq_refl)
    as (_ & Ho & _ & Hp & _).
  exact (conj Ho Hp).
Defined.

Lemma tick_keeps_positions_witness :
  JsMap.get "0xabc"
    (Guardrails.openPositions
       (Executor.guard
          (TraderService.world
             (snd (TraderService.tick MoreSamples.tickEnv Samples.liveConfig
                     MoreSamples.holdingService)))))
  = Some (Samples.position "0xabc" 5).
Proof.
  exact (@tick_keeps_positions MoreSamples.tickEnv Samples.liveConfig
           MoreSamples.holdingService "0xabc" (Samples.position "0xabc" 5)
           holdingService_keyed eq_refl).
Defined.

Section StrategyMore.
Import MarketDiscovery.
Import Strategy.




Lemma gain_bound p s e c tp m :
  c == s * e -> 0 < s -> 0 < m -> m <= e -> p <= 1 -> 1 < (1 + tp) * m ->
  (p * s - c) / c < tp.
Proof.
  intros Hc Hs Hm He Hp Htp.
  assert (Hnn : 0 < 1 + tp).
  { destruct (Qlt_le_dec 0 (1 + tp)) as [H | H]; [assumption|]. nra. }
  assert (Hcpos : 0 < c) by (rewrite Hc; nra).
  apply Qlt_shift_div_r; [assumption|].
  rewrite Hc.
  assert (H1 : p * s <= 1 * s) by (apply Qmult_le_compat_r; lra).
  assert (H2 : 1 * s < (1 + tp) * m * s) by (apply Qmult_lt_compat_r; lra).
  assert (H3 : (1 + tp) * m <= (1 + tp) * e).
  { rewrite !(Qmult_comm (1 + tp)). apply Qmult_le_compat_r; lra. }
  assert (H4 : (1 + tp) * m * s <= (1 + tp) * e * s)
    by (apply Qmult_le_compat_r; lra).
  lra.
Qed.

(** The invariant of the [reduce] of [getLeadingOutcome]. *)
Lemma leader_fold rest : forall before best after,
  (forall o, In o before -> price o < price best) ->
  (forall o, In o after -> price o <= price best) ->
  exists before' after',
    before ++ best :: after ++ rest
    = before' ++ fold_left (fun b o => if Num.gtb (price o) (price b) then o else b)
                           rest best :: after'
    /\ (forall o, In o before' ->
          price o < price (fold_left (fun b o => if Num.gtb (price o) (price b)
                                                  then o else b) rest best))
    /\ (forall o, In o after' ->
          price o <= price (fold_left (fun b o => if Num.gtb (price o) (price b)
                                                   then o else b) rest best)).
Proof.
  induction rest as [|x rest IH]; intros before best after Hb Ha; simpl.
  - exists before, after. rewrite app_nil_r. auto.
  - destruct (Num.gtb (price x) (price best)) eqn:E.
    + apply gtb_spec in E.
      destruct (IH (before ++ best :: after) x []) as (b' & a' & Heq & Hb' & Ha').
      * intros o Hin. apply in_app_or in Hin as [Hin | [<- | Hin]].
        -- specialize (Hb _ Hin). lra.
        -- assumption.
        -- specialize (Ha _ Hin). lra.
      * intros o [].
      * exists b', a'. split; [| auto].
        rewrite <- Heq. simpl. now rewrite <- app_assoc.
    + apply gtb_false_spec in E.
      destruct (IH before best (after ++ [x])) as (b' & a' & Heq & Hb' & Ha').
      * assumption.
      * intros o Hin. apply in_app_or in Hin as [Hin | [<- | []]]; auto.
      * exists b', a'. split; [| auto].
        rewrite <- Heq. now rewrite <- !app_assoc.
Qed.

End StrategyMore.

(** X17. The leading outcome is one of the outcomes of the market, priced
    strictly above every outcome listed before it and at least as high as
    every outcome listed after it: the highest price wins and a tie goes to
    the outcome listed first.  There is none exactly when the market lists
    no outcome. *)
Theorem getLeadingOutcome_first_maximum :
  forall market,
    (MarketDiscovery.getLeadingOutcome market = None
     <-> MarketDiscovery.outcomes market = [])
    /\ forall leader,
         MarketDiscovery.getLeadingOutcome market = Some leader ->
         exists before after,
           MarketDiscovery.outcomes market = before ++ leader :: after
           /\ (forall o, In o before ->
                 MarketDiscovery.price o < MarketDiscovery.price leader)
           /\ (forall o, In o after ->
                 MarketDiscovery.price o <= MarketDiscovery.price leader).
Proof.
  intros market. unfold MarketDiscovery.getLeadingOutcome.
  destruct (MarketDiscovery.outcomes market) as [|first rest].
  - split; [tauto | discriminate].
  - split; [split; discriminate|].
    intros leader [= <-].
    destruct (@leader_fold rest [] first []) as (b & a & Heq & Hb & Ha);
      try (intros o []).
    exists b, a. auto.
Qed.



(** X19. For a position bought at or above the minimum entry price, with
    cost basis size times entry price, and a held outcome priced at most 1,
    the take-profit rule cannot fire once (1 + take-profit fraction) times
    the minimum entry price exceeds 1, as with the defaults 0.80 and 0.60:
    the gain stays below the fraction, and [evaluateExit] sells only by the
    near-expiry rule, with less than one minute left and a gain above 10%. *)
Theorem take_profit_out_of_reach :
  forall market position config held,
    find (fun o => String.eqb (MarketDiscovery.tokenId o)
                     (Guardrails.tokenId position))
         (MarketDiscovery.outcomes market) = Some held ->
    MarketDiscovery.price held <= 1 ->
    0 < Guardrails.size position ->
    Guardrails.costBasis position
    == Guardrails.size position * Guardrails.entryPrice position ->
    0 < Config.minEntryPrice config ->
    Config.minEntryPrice config <= Guardrails.entryPrice position ->
    1 < (1 + Config.takeProfitPct config) * Config.minEntryPrice config ->
    let s := Strategy.evaluateExit market position config in
    (exists gain, Strategy.unrealizedGainPct s = Some gain
                  /\ gain < Config.takeProfitPct config)
    /\ (Strategy.signal s = Strategy.SELL ->
        MarketDiscovery.minutesRemaining market < 1
        /\ exists gain, Strategy.unrealizedGainPct s = Some gain /\ 1 # 10 < gain).
Proof.
  intros market position config held Hfind Hp Hs Hc Hm He Htp. cbv zeta.
  unfold Strategy.evaluateExit. rewrite Hfind.
  pose proof (gain_bound Hc Hs Hm He Hp Htp) as Hgain.
  set (gain := (MarketDiscovery.price held * Guardrails.size position
                - Guardrails.costBasis position)
               / Guardrails.costBasis position) in *.
  replace (Num.geb gain (Config.takeProfitPct config)) with false
    by (symmetry; now apply geb_false_spec).
  destruct (Num.ltb (MarketDiscovery.minutesRemaining market) 1
            && Num.gtb gain (1 # 10)) eqn:E; cbn.
  - apply andb_prop in E as [E1 E2]. apply ltb_spec in E1. apply gtb_spec in E2.
    split; [now exists gain|]. intros _. split; [assumption | now exists gain].
  - split; [now exists gain | discriminate].
Qed.

Lemma take_profit_out_of_reach_witness :
  let s := Strategy.evaluateExit Samples.lateMarket MoreSamples.boughtPosition
             Samples.liveConfig in
  exists gain, Strategy.unrealizedGainPct s = Some gain
               /\ gain < Config.takeProfitPct Samples.liveConfig.
Proof.
  refine (proj1 (@take_profit_out_of_reach Samples.lateMarket
                   MoreSamples.boughtPosition Samples.liveConfig
                   MoreSamples.heldOutcome eq_refl _ _ _ _ _ _));
    reflexivity || discriminate.
Defined.

(** ** Market discovery *)

Section DiscoveryFacts.
Import MarketDiscovery.
Import Discovery.

Lemma slot_bounds nowSec :
  (getCurrentSlotStart nowSec <= nowSec < getCurrentSlotStart nowSec + 900)%Z
  /\ (getCurrentSlotStart nowSec mod 900 = 0)%Z.
Proof.
  unfold getCurrentSlotStart, Config.MARKET_DURATION_SEC.
  pose proof (Z.div_mod nowSec 900 ltac:(lia)) as Hdm.
  pose proof (Z.mod_pos_bound nowSec 900 ltac:(lia)) as Hb.
  split; [lia|]. apply Z.mod_mul. lia.
Qed.

Lemma decimal_inj a b : decimal a = decimal b -> a = b.
Proof.
  unfold decimal. intros H. apply DecimalZ.to_int_inj.
  assert (Hnn : forall z, Z.to_int z <> Decimal.Pos Decimal.Nil
                          /\ Z.to_int z <> Decimal.Neg Decimal.Nil).
  { intros [|p|p]; simpl; split; try discriminate;
      intros [= Hp]; now apply (DecimalPos.Unsigned.to_uint_nonnil p). }
  assert (Some (Z.to_int a) = Some (Z.to_int b)) as [= ->]; [| reflexivity].
  rewrite <- (NilZero.isi (Z.to_int a)) by apply Hnn.
  rewrite <- (NilZero.isi (Z.to_int b)) by apply Hnn.
  now rewrite H.
Qed.

Lemma buildMarketSlug_inj a b : buildMarketSlug a = buildMarketSlug b -> a = b.
Proof.
  unfold buildMarketSlug. simpl. intros [= H]. now apply decimal_inj.
Qed.

Lemma tryFetch_some fetch slotStart nowSec m :
  tryFetchActiveMarket fetch slotStart nowSec = Some m ->
  startTime m = slotStart
  /\ slug m = buildMarketSlug slotStart
  /\ endTime m = (slotStart + 900)%Z
  /\ secondsRemaining m = Z.max 0 (slotStart + 900 - nowSec)
  /\ minutesRemaining m = inject_Z (secondsRemaining m) / 60
  /\ exists raw, fetch (buildMarketSlug slotStart) = Some raw
                 /\ map tokenId (outcomes m) = rawTokenIds raw.
Proof.
  unfold tryFetchActiveMarket.
  destruct (fetch (buildMarketSlug slotStart)) as [raw|]; [| discriminate].
  intros [= <-]. cbn. repeat (split; [reflexivity|]).
  exists raw. split; [reflexivity|].
  generalize (rawPrices raw), (rawLabels raw).
  induction (rawTokenIds raw) as [|t ts IH]; intros ps ls; simpl; auto.
  now rewrite IH.
Qed.

End DiscoveryFacts.

(** X20. Slots are 900 seconds long and aligned to the epoch: the start of
    the current slot is a multiple of 900 that is at most [nowSec] and less
    than 900 seconds before it, and the seconds remaining in the slot are
    900 minus the seconds elapsed, between 1 and 900; the guard against a
    negative value never applies. *)
Theorem slot_arithmetic :
  forall nowSec,
    let start := MarketDiscovery.getCurrentSlotStart nowSec in
    (start mod 900 = 0)%Z
    /\ (start <= nowSec < start + 900)%Z
    /\ Discovery.getSecondsRemaining nowSec = (900 - (nowSec - start))%Z
    /\ (1 <= Discovery.getSecondsRemaining nowSec <= 900)%Z.
Proof.
  intros nowSec. cbv zeta. destruct (slot_bounds nowSec) as [Hb Hm].
  unfold Discovery.getSecondsRemaining, Config.MARKET_DURATION_SEC.
  repeat split; try assumption; lia.
Qed.

(** X21. The slug determines the slot: two slot starts with the same slug
    are equal, so the twenty windows of a sweep have pairwise different
    slugs. *)
Theorem slug_determines_slot :
  (forall a b,
     MarketDiscovery.buildMarketSlug a = MarketDiscovery.buildMarketSlug b -> a = b)
  /\ forall env i j,
       Redeemer.slugOfWindow env i = Redeemer.slugOfWindow env j -> i = j.
Proof.
  split.
  - exact buildMarketSlug_inj.
  - intros env i j H. unfold Redeemer.slugOfWindow in H.
    apply buildMarketSlug_inj in H. unfold Config.MARKET_DURATION_SEC in H. lia.
Qed.

(** X22. The market that discovery returns is the one of the current slot
    when the API lists it, else the one of the previous slot, else the one
    of the next.  Its slug, start and end belong to that slot, its outcomes
    carry the token ids of the API in order, and the time left is between 1
    and 900 seconds for the current slot, zero for the previous one and
    between 901 and 1800 seconds for the next; the minutes are the seconds
    divided by 60. *)
Theorem discovered_market_timing :
  forall fetch nowSec m,
    Discovery.discoverCurrentMarket fetch nowSec = Some m ->
    let cur := MarketDiscovery.getCurrentSlotStart nowSec in
    MarketDiscovery.slug m = MarketDiscovery.buildMarketSlug (MarketDiscovery.startTime m)
    /\ MarketDiscovery.endTime m = (MarketDiscovery.startTime m + 900)%Z
    /\ MarketDiscovery.minutesRemaining m
       = inject_Z (MarketDiscovery.secondsRemaining m) / 60
    /\ (exists raw, fetch (MarketDiscovery.slug m) = Some raw
                    /\ map MarketDiscovery.tokenId (MarketDiscovery.outcomes m)
                       = Discovery.rawTokenIds raw)
    /\ ((MarketDiscovery.startTime m = cur
         /\ (1 <= MarketDiscovery.secondsRemaining m <= 900)%Z)
        \/ (MarketDiscovery.startTime m = (cur - 900)%Z
            /\ MarketDiscovery.secondsRemaining m = 0%Z
            /\ fetch (MarketDiscovery.buildMarketSlug cur) = None)
        \/ (MarketDiscovery.startTime m = (cur + 900)%Z
            /\ (901 <= MarketDiscovery.secondsRemaining m <= 1800)%Z
            /\ fetch (MarketDiscovery.buildMarketSlug cur) = None
            /\ fetch (MarketDiscovery.buildMarketSlug (cur - 900)) = None)).
Proof.
  intros fetch nowSec m. cbv zeta. unfold Discovery.discoverCurrentMarket.
  destruct (slot_bounds nowSec) as [Hb _].
  set (cur := MarketDiscovery.getCurrentSlotStart nowSec) in *.
  unfold Config.MARKET_DURATION_SEC.
  assert (Hnone : forall s, Discovery.tryFetchActiveMarket fetch s nowSec = None ->
                            fetch (MarketDiscovery.buildMarketSlug s) = None).
  { intros s. unfold Discovery.tryFetchActiveMarket.
    now destruct (fetch (MarketDiscovery.buildMarketSlug s)). }
  destruct (Discovery.tryFetchActiveMarket fetch cur nowSec) as [m0|] eqn:E0.
  - intros [= ->]. apply tryFetch_some in E0
      as (Hs & Hslug & He & Hsec & Hmin & raw & Hraw & Htok).
    rewrite Hs, Hslug, He, Hmin. repeat (split; [reflexivity|]).
    split; [exists raw; auto|]. left. split; [reflexivity | lia].
  - destruct (Discovery.tryFetchActiveMarket fetch (cur - 900) nowSec) as [m1|] eqn:E1.
    + intros [= ->]. apply tryFetch_some in E1
        as (Hs & Hslug & He & Hsec & Hmin & raw & Hraw & Htok).
      rewrite Hs, Hslug, He, Hmin. repeat (split; [reflexivity|]).
      split; [exists raw; auto|]. right. left.
      split; [reflexivity|]. split; [lia | now apply Hnone].
    + intros E2. apply tryFetch_some in E2
        as (Hs & Hslug & He & Hsec & Hmin & raw & Hraw & Htok).
      rewrite Hs, Hslug, He, Hmin. repeat (split; [reflexivity|]).
      split; [exists raw; auto|]. right. right.
      split; [reflexivity|]. split; [lia|]. split; now apply Hnone.
Qed.

Lemma discovered_market_timing_witness :
  exists m,
    Discovery.discoverCurrentMarket MoreSamples.gammaApi 2000000 = Some m
    /\ MarketDiscovery.slug m
       = MarketDiscovery.buildMarketSlug (MarketDiscovery.startTime m)
    /\ MarketDiscovery.endTime m = (MarketDiscovery.startTime m + 900)%Z.
Proof.
  eexists. split; [reflexivity|].
  match goal with |- context [MarketDiscovery.slug ?m] =>
    destruct (@discovered_market_timing MoreSamples.gammaApi 2000000 m eq_refl)
      as (H1 & H2 & _)
  end.
  exact (conj H1 H2).
Defined.

(** ** Redemption sweep, further *)

Section WinnerFacts.
Import Redeemer.

Lemma nth_tl (A : Type) (l : list A) n d : nth n (tl l) d = nth (S n) l d.
Proof. destruct l; simpl; [destruct n|]; reflexivity. Qed.

Lemma nth_hd (A : Type) (l : list A) d : hd d l = nth 0 l d.
Proof. now destruct l. Qed.

Lemma winnerScan_spec prices : forall labels w,
  winnerScan labels prices = Some w <->
  exists before p after,
    prices = before ++ Some p :: after
    /\ forallb (fun q => negb (isOne q)) before = true
    /\ p == 1
    /\ w = labelOf (nth (length before) labels EmptyString).
Proof.
  induction prices as [|q qs IH]; intros labels w; simpl.
  - split; [discriminate|]. intros (before & p & after & H & _).
    destruct before; discriminate.
  - destruct (isOne q) eqn:E.
    + rewrite nth_hd. split.
      * intros [= <-]. destruct q as [p|]; [| discriminate].
        exists [], p, qs. simpl. split; [reflexivity|]. split; [reflexivity|].
        split; [now apply Qeq_bool_iff | reflexivity].
      * intros (before & p & after & Heq & Hb & Hp & ->).
        destruct before as [|b before]; simpl in *; [reflexivity|].
        injection Heq as -> _. rewrite E in Hb. discriminate.
    + rewrite IH. split.
      * intros (before & p & after & -> & Hb & Hp & ->).
        exists (q :: before), p, after. simpl. rewrite E, nth_tl.
        split; [reflexivity|]. split; [assumption|]. split; [assumption|reflexivity].
      * intros (before & p & after & Heq & Hb & Hp & ->).
        destruct before as [|b before]; simpl in *.
        -- injection Heq as -> _. simpl in E.
           apply Qeq_bool_iff in Hp. congruence.
        -- injection Heq as -> ->. apply andb_prop in Hb as [_ Hb].
           exists before, p, after. rewrite nth_tl.
           split; [reflexivity|]. split; [assumption|]. split; [assumption|reflexivity].
Qed.

End WinnerFacts.

(** X23. [getWinner] answers with the label at the place of the first price
    that reads as exactly 1, "Up" when the lower-cased label contains "up"
    and "Down" otherwise, also when no label stands at that place; it
    answers null exactly when decoding fails or no price is exactly 1. *)
Theorem getWinner_first_price_of_one :
  forall market,
    (forall w,
       Redeemer.getWinner market = Some w <->
       exists labels before p after,
         Redeemer.rawOutcomes market = Some (labels, before ++ Some p :: after)
         /\ forallb (fun q => negb (Redeemer.isOne q)) before = true
         /\ p == 1
         /\ w = Redeemer.labelOf (nth (length before) labels EmptyString))
    /\ (Redeemer.getWinner market <> None <-> Redeemer.decodable market).
Proof.
  intros market. split.
  - intros w. unfold Redeemer.getWinner.
    destruct (Redeemer.rawOutcomes market) as [[labels prices]|].
    + rewrite winnerScan_spec. split.
      * intros (before & p & after & -> & H). now exists labels, before, p, after.
      * intros (labels' & before & p & after & [= <- ->] & H).
        now exists before, p, after.
    + split; [discriminate|]. intros (l & b & p & a & H & _). discriminate.
  - split.
    + destruct (Redeemer.getWinner market) as [w|] eqn:E; [| tauto].
      intros _. now apply getWinner_decodable with w.
    + intros (labels & prices & p & Hraw & Hin & Hp).
      unfold Redeemer.getWinner. rewrite Hraw. clear Hraw. revert labels.
      induction prices as [|q qs IH]; intros labels; [destruct Hin|].
      simpl. destruct (Redeemer.isOne q) eqn:E; [discriminate|].
      destruct Hin as [-> | Hin]; [| now apply IH].
      simpl in E. apply Qeq_bool_iff in Hp. congruence.
Qed.

Section WaitFacts.
Import Redeemer.
Import SweepTrace.

Lemma filter_wait_app l1 l2 :
  length (filter isWait (l1 ++ l2))
  = (length (filter isWait l1) + length (filter isWait l2))%nat.
Proof. now rewrite filter_app, length_app. Qed.

Lemma waitForTx_bounded tx r :
  ledger (snd (waitForTx tx r)) = ledger r
  /\ redeemedCount (snd (waitForTx tx r)) = redeemedCount r
  /\ exists added,
       trace (snd (waitForTx tx r)) = trace r ++ added
       /\ redeemsOf added = [] /\ queriesOf added = []
       /\ ((exists k rc,
              (k < 3)%nat
              /\ (forall j, (j < k)%nat -> wait tx j = None)
              /\ wait tx k = Some rc
              /\ fst (waitForTx tx r) = Some rc
              /\ length (filter isWait added) = S k
              /\ filter isPoll added = [])
           \/ ((forall j, (j < 3)%nat -> wait tx j = None)
               /\ fst (waitForTx tx r) = polled tx
               /\ length (filter isWait added) = 3%nat
               /\ length (filter isPoll added) = 1%nat)).
Proof.
  unfold waitForTx, polled. cbn [waitAttempts].
  destruct (wait tx 0) as [rc0|] eqn:W0.
  { cbn. repeat (split; [reflexivity|]). eexists. split; [reflexivity|].
    split; [reflexivity|]. split; [reflexivity|]. left. exists 0%nat, rc0.
    repeat split; auto. intros j Hj. lia. }
  destruct (wait tx 1) as [rc1|] eqn:W1.
  { cbn. repeat (split; [reflexivity|]). eexists. split.
    { rewrite <- !app_assoc. reflexivity. }
    split; [reflexivity|]. split; [reflexivity|]. left. exists 1%nat, rc1.
    repeat split; auto. intros j Hj. now replace j with 0%nat by lia. }
  destruct (wait tx 2) as [rc2|] eqn:W2.
  { cbn. repeat (split; [reflexivity|]). eexists. split.
    { rewrite <- !app_assoc. reflexivity. }
    split; [reflexivity|]. split; [reflexivity|]. left. exists 2%nat, rc2.
    repeat split; auto. intros j Hj.
    destruct j as [|[|j]]; auto. lia. }
  assert (Hall : forall j, (j < 3)%nat -> wait tx j = None).
  { intros j Hj. destruct j as [|[|[|j]]]; auto. lia. }
  destruct (getTransactionReceipt tx) as [[rc|]|err]; cbn;
    try destruct (negb (Z.eqb (blockNumber rc) 0)); cbn;
    (split; [reflexivity|]); (split; [reflexivity|]);
    (eexists; split; [rewrite <- !app_assoc; reflexivity|]);
    (split; [reflexivity|]); (split; [reflexivity|]);
    right; repeat split; auto.
Qed.

End WaitFacts.

(** X24. [waitForTx] is a bounded retry: it calls [tx.wait()] until it
    returns, at most three times, and yields that receipt; only when all
    three calls throw does it poll the receipt once, and then yields it if
    it carries a block number and null otherwise.  It adds nothing but
    waits, pauses, log lines and that poll to the trace, and touches
    neither the ledger nor the count of redemptions. *)
Theorem waitForTx_bounded_retry :
  forall tx r,
    Redeemer.ledger (snd (Redeemer.waitForTx tx r)) = Redeemer.ledger r
    /\ Redeemer.redeemedCount (snd (Redeemer.waitForTx tx r))
       = Redeemer.redeemedCount r
    /\ exists added,
         Redeemer.trace (snd (Redeemer.waitForTx tx r)) = Redeemer.trace r ++ added
         /\ SweepTrace.redeemsOf added = [] /\ SweepTrace.queriesOf added = []
         /\ ((exists k rc,
                (k < 3)%nat
                /\ (forall j, (j < k)%nat -> Redeemer.wait tx j = None)
                /\ Redeemer.wait tx k = Some rc
                /\ fst (Redeemer.waitForTx tx r) = Some rc
                /\ length (filter SweepTrace.isWait added) = S k
                /\ filter SweepTrace.isPoll added = [])
             \/ ((forall j, (j < 3)%nat -> Redeemer.wait tx j = None)
                 /\ fst (Redeemer.waitForTx tx r) = SweepTrace.polled tx
                 /\ length (filter SweepTrace.isWait added) = 3%nat
                 /\ length (filter SweepTrace.isPoll added) = 1%nat)).
Proof. exact waitForTx_bounded. Qed.

Section AttemptFacts.
Import Redeemer.
Import SweepTrace.

Lemma redeemsOf_app l1 l2 : redeemsOf (l1 ++ l2) = redeemsOf l1 ++ redeemsOf l2.
Proof.
  induction l1 as [|e l1 IH]; simpl; auto.
  destruct e; simpl; now rewrite ?IH.
Qed.

Lemma queriesOf_app l1 l2 : queriesOf (l1 ++ l2) = queriesOf l1 ++ queriesOf l2.
Proof.
  induction l1 as [|e l1 IH]; simpl; auto.
  destruct e; simpl; now rewrite ?IH.
Qed.

Lemma redeemToken_trace env i j slug cid tokenId bal r :
  exists added,
    trace (runOf (redeemToken env i j slug cid tokenId bal r)) = trace r ++ added
    /\ redeemsOf added = [tokenId] /\ queriesOf added = [].
Proof.
  unfold redeemToken. destruct (proxy env i j) as [tx | err].
  - match goal with |- context [waitForTx tx ?r0] =>
      destruct (waitForTx_bounded tx r0)
        as (_ & _ & added & Htr & Hred & Hq & _);
      destruct (waitForTx tx r0) as [receipt r1]
    end.
    cbn [snd] in Htr. cbn [trace emit] in Htr.
    destruct receipt as [rc|];
      [destruct (Z.eqb (receiptStatus rc) 1); [| destruct (Z.eqb (receiptStatus rc) 0)]|];
      cbn [runOf trace emit countRedeemed]; rewrite Htr;
      (eexists; split; [rewrite <- !app_assoc; reflexivity|]);
      rewrite ?redeemsOf_app, ?queriesOf_app, Hred, Hq; auto.
  - destruct (includes _ _); cbn;
      (eexists; split; [rewrite <- !app_assoc; reflexivity|]); auto.
Qed.

Lemma sweepWindows_lines env funder windows : forall r,
  exists added,
    TradeLog.linesOf (ledger (runOf (sweepWindows env funder windows r)))
    = TradeLog.linesOf (ledger r) ++ added
    /\ Forall (fun l =>
                 exists i market w,
                   In i windows
                   /\ fetchMarket env i = FetchOk market
                   /\ getWinner market = Some w
                   /\ l = TradeLog.Parsed (TradeLog.Resolution
                            {| TradeLog.res_time := timeAt env i;
                               TradeLog.res_slug := slugOfWindow env i;
                               TradeLog.resolved := w |})) added.
Proof.
  induction windows as [|i rest IH]; intros r; simpl.
  - exists []. now rewrite app_nil_r.
  - assert (Hstep : exists a1,
              TradeLog.linesOf (ledger (runOf (sweepWindow env funder i r)))
              = TradeLog.linesOf (ledger r) ++ a1
              /\ Forall (fun l =>
                   exists i0 market w,
                     In i0 (i :: rest)
                     /\ fetchMarket env i0 = FetchOk market
                     /\ getWinner market = Some w
                     /\ l = TradeLog.Parsed (TradeLog.Resolution
                              {| TradeLog.res_time := timeAt env i0;
                                 TradeLog.res_slug := slugOfWindow env i0;
                                 TradeLog.resolved := w |})) a1).
    { destruct (ledger_sweepWindow env funder i r)
        as [-> | (market & w & Hf & Hw & _ & _ & ->)].
      - exists []. now rewrite app_nil_r.
      - eexists. split.
        + unfold TradeLog.logResolution. apply linesOf_appendLine.
        + constructor; [| constructor].
          exists i, market, w. simpl. auto. }
    destruct Hstep as (a1 & Hl1 & Hf1).
    destruct (sweepWindow env funder i r) as [r1 | r1]; cbn [runOf] in *.
    + destruct (IH r1) as (a2 & Hl2 & Hf2).
      exists (a1 ++ a2). rewrite Hl2, Hl1, app_assoc. split; [reflexivity|].
      apply Forall_app. split; [assumption|].
      eapply Forall_impl; [| exact Hf2].
      intros l (i0 & market & w & Hin & H). exists i0, market, w. simpl. tauto.
    + exists a1. auto.
Qed.

(** X25. In the loop over the tokens of a window the balance of each token
    is queried in order, and a redemption is attempted exactly for the
    tokens whose query answers with a positive balance, once each and in
    order; a token with balance zero or with a failed query is never
    redeemed.  When the loop is left early the attempts made are a prefix
    of that list. *)
Theorem redemption_attempts_follow_balances :
  forall env funder i j slug cid tokenIds r,
    exists added,
      Redeemer.trace (Redeemer.runOf
                        (Redeemer.sweepTokens env funder i j slug cid tokenIds r))
      = Redeemer.trace r ++ added
      /\ (exists rest,
            SweepTrace.heldTokens env i j tokenIds
            = SweepTrace.redeemsOf added ++ rest)
      /\ (exists rest, tokenIds = SweepTrace.queriesOf added ++ rest)
      /\ (forall r',
            Redeemer.sweepTokens env funder i j slug cid tokenIds r
            = Redeemer.Continue r' ->
            SweepTrace.redeemsOf added = SweepTrace.heldTokens env i j tokenIds
            /\ SweepTrace.queriesOf added = tokenIds).
Proof.
  intros env funder i j slug cid tokenIds. revert j.
  induction tokenIds as [|tokenId rest IH]; intros j r; simpl.
  - exists []. rewrite app_nil_r. repeat split; auto; now exists [].
  - destruct (balanceOf env i j) as [bal|].
    + destruct (Z.gtb bal 0).
      * destruct (redeemToken_trace env i j slug cid tokenId bal
                    (emit [EvBalanceOf funder tokenId] r))
          as (a1 & Htr1 & Hred1 & Hq1).
        destruct (redeemToken env i j slug cid tokenId bal
                    (emit [EvBalanceOf funder tokenId] r)) as [r1 | r1];
          cbn [runOf] in Htr1; cbn [trace emit] in Htr1.
        -- destruct (IH (S j) r1) as (a2 & Htr2 & [x Hx] & [y Hy] & Hc).
           exists ([EvBalanceOf funder tokenId] ++ a1 ++ a2).
           rewrite Htr2, Htr1, <- !app_assoc.
           split; [reflexivity|].
           cbn [app redeemsOf queriesOf].
           rewrite redeemsOf_app, queriesOf_app, Hred1, Hq1. cbn [app].
           split; [exists x; now rewrite Hx|].
           split; [exists y; now rewrite <- Hy|].
           intros r' Hr'. destruct (Hc r' Hr') as [-> ->]. auto.
        -- exists ([EvBalanceOf funder tokenId] ++ a1).
           cbn [runOf]. rewrite Htr1, <- !app_assoc.
           split; [reflexivity|].
           cbn [app redeemsOf queriesOf]. rewrite Hred1, Hq1.
           split; [now exists (heldTokens env i (S j) rest)|].
           split; [now exists rest | discriminate].
      * destruct (IH (S j) (emit [EvBalanceOf funder tokenId] r))
          as (a2 & Htr2 & [x Hx] & [y Hy] & Hc).
        exists ([EvBalanceOf funder tokenId] ++ a2).
        rewrite Htr2. cbn [trace emit]. rewrite <- !app_assoc.
        split; [reflexivity|]. cbn [app redeemsOf queriesOf].
        split; [now exists x|]. split; [exists y; now rewrite <- Hy|].
        intros r' Hr'. destruct (Hc r' Hr') as [-> ->]. auto.
    + destruct (IH (S j) (emit [EvSleep 5000] (emit [EvBalanceOf funder tokenId] r)))
        as (a2 & Htr2 & [x Hx] & [y Hy] & Hc).
      exists ([EvBalanceOf funder tokenId] ++ [EvSleep 5000] ++ a2).
      rewrite Htr2. cbn [trace emit]. rewrite <- !app_assoc.
      split; [reflexivity|]. cbn [app redeemsOf queriesOf].
      split; [now exists x|]. split; [exists y; now rewrite <- Hy|].
      intros r' Hr'. destruct (Hc r' Hr') as [-> ->]. auto.
Qed.

End AttemptFacts.

(** X26. A sweep writes nothing to the ledger but resolutions of its own
    twenty windows: every line it appends is the resolution entry of a
    window whose market was fetched, under the slug of that window, with
    the winner [getWinner] reads from the market and the time of that
    window; buy entries are never written and earlier lines never
    changed. *)
Theorem sweep_appends_own_resolutions :
  forall env funder log,
    exists added,
      TradeLog.linesOf (Redeemer.ledger (Redeemer.runRedemptionSweep env funder log))
      = TradeLog.linesOf log ++ added
      /\ Forall (fun l =>
                   exists i market w,
                     (1 <= i <= 20)%nat
                     /\ Redeemer.fetchMarket env i = Redeemer.FetchOk market
                     /\ Redeemer.getWinner market = Some w
                     /\ l = TradeLog.Parsed (TradeLog.Resolution
                              {| TradeLog.res_time := Redeemer.timeAt env i;
                                 TradeLog.res_slug := Redeemer.slugOfWindow env i;
                                 TradeLog.resolved := w |})) added.
Proof.
  intros env funder log. unfold Redeemer.runRedemptionSweep.
  assert (Hnone : exists added : list TradeLog.Line,
            TradeLog.linesOf log = TradeLog.linesOf log ++ added
            /\ Forall (fun l =>
                   exists i market w,
                     (1 <= i <= 20)%nat
                     /\ Redeemer.fetchMarket env i = Redeemer.FetchOk market
                     /\ Redeemer.getWinner market = Some w
                     /\ l = TradeLog.Parsed (TradeLog.Resolution
                              {| TradeLog.res_time := Redeemer.timeAt env i;
                                 TradeLog.res_slug := Redeemer.slugOfWindow env i;
                                 TradeLog.resolved := w |})) added).
  { exists []. now rewrite app_nil_r. }
  destruct (Redeemer.connect env); [exact Hnone|].
  destruct (Redeemer.getBalance env) as [bal | err]; [| exact Hnone].
  destruct (Z.ltb bal Redeemer.MIN_GAS_WEI); [exact Hnone|].
  destruct (sweepWindows_lines env funder (seq 1 20) (Redeemer.startOf log))
    as (added & Hl & Hf).
  exists added. split.
  - destruct (Redeemer.sweepWindows env funder (seq 1 20) (Redeemer.startOf log))
      as [r' | r']; cbn [Redeemer.runOf] in Hl; [| exact Hl].
    now destruct (Nat.eqb _ 0).
  - eapply Forall_impl; [| exact Hf].
    intros l (i & market & w & Hin & H). exists i, market, w.
    apply in_seq in Hin. split; [lia | exact H].
Qed.

(** X27. A sweep that cannot start does nothing: when the provider cannot be
    set up, the balance query of the signer throws, or the signer holds
    less than 0.001 MATIC, the ledger is untouched, nothing is fetched,
    queried or redeemed, and a single line is logged. *)
Theorem sweep_without_gas_is_noop :
  forall env funder log,
    Redeemer.connect env <> None
    \/ (exists err, Redeemer.getBalance env = Threw err)
    \/ (exists bal, Redeemer.getBalance env = Ok bal
                    /\ (bal < Redeemer.MIN_GAS_WEI)%Z) ->
    let r := Redeemer.runRedemptionSweep env funder log in
    Redeemer.ledger r = log
    /\ Redeemer.redeemedCount r = 0%nat
    /\ exists line, Redeemer.trace r = [Redeemer.EvLog line].
Proof.
  intros env funder log H. cbv zeta. unfold Redeemer.runRedemptionSweep.
  destruct (Redeemer.connect env) as [e|].
  - cbn. repeat split. eexists. reflexivity.
  - destruct (Redeemer.getBalance env) as [bal | err].
    + destruct H as [H | [[e He] | (b & [= <-] & Hb)]]; [congruence | discriminate |].
      replace (Z.ltb bal Redeemer.MIN_GAS_WEI) with true
        by (symmetry; now apply Z.ltb_lt).
      cbn. repeat split. eexists. reflexivity.
    + cbn. repeat split. eexists. reflexivity.
Qed.

Lemma sweep_without_gas_is_noop_witness :
  Redeemer.ledger
    (Redeemer.runRedemptionSweep
       {| Redeemer.connect := None; Redeemer.getBalance := Ok 999999999999999%Z;
          Redeemer.startMs := 2000000000; Redeemer.timeAt := fun _ => 0%Z;
          Redeemer.fetchMarket := fun _ => Redeemer.FetchOk Samples.resolvedMarket;
          Redeemer.balanceOf := fun _ _ => Some 5000000%Z;
          Redeemer.proxy := fun _ _ => Ok Samples.confirmedTx |}
       "0xfunder" None) = None.
Proof.
  refine (proj1 (@sweep_without_gas_is_noop _ "0xfunder" None _)).
  right. right. eexists. split; reflexivity.
Defined.

(** ** Price feed *)

Section PriceFeedFacts.
Import PriceFeed.

Lemma firstPrice_positive answers price :
  firstPrice answers = Some price -> 0 < price.
Proof.
  induction answers as [|a rest IH]; simpl; [discriminate|].
  destruct a as [|[p|]]; auto.
  destruct (Num.gtb p 0) eqn:E; auto.
  intros [= <-]. now apply gtb_spec.
Qed.

Lemma getBtcPrice_step now answers c :
  (forall p, lastPrice c = Some p -> 0 < p) ->
  positive (fst (getBtcPrice now answers c))
  /\ (forall p, lastPrice (snd (getBtcPrice now answers c)) = Some p -> 0 < p)
  /\ (lastPrice c <> None -> returned (fst (getBtcPrice now answers c)) = true)
  /\ (returned (fst (getBtcPrice now answers c)) = true ->
      lastPrice (snd (getBtcPrice now answers c)) <> None).
Proof.
  intros Hc. unfold getBtcPrice.
  destruct (lastPrice c) as [cached|] eqn:L.
  - destruct (Z.ltb _ _).
    + cbn. rewrite L. repeat split; auto; discriminate.
    + destruct (firstPrice answers) as [price|] eqn:F; cbn.
      * apply firstPrice_positive in F.
        repeat split; auto; try discriminate. now intros p [= <-].
      * rewrite L. repeat split; auto; discriminate.
  - destruct (firstPrice answers) as [price|] eqn:F; cbn.
    + apply firstPrice_positive in F.
      repeat split; auto; try discriminate. now intros p [= <-].
    + rewrite L. repeat split; auto; discriminate.
Qed.

Lemma calls_sound cs : forall c,
  (forall p, lastPrice c = Some p -> 0 < p) ->
  Forall positive (fst (calls cs c))
  /\ (lastPrice c <> None -> forallb returned (fst (calls cs c)) = true)
  /\ settled (fst (calls cs c)) = true.
Proof.
  induction cs as [|[now answers] cs IH]; intros c Hc; simpl.
  - repeat split; auto.
  - destruct (@getBtcPrice_step now answers c Hc) as (Hpos & Hc' & Hret & Hkeep).
    destruct (getBtcPrice now answers c) as [r c'] eqn:G. cbn [fst snd] in *.
    destruct (IH c' Hc') as (Hall & Hok & Hset).
    destruct (calls cs c') as [rs c''] eqn:C. cbn [fst] in *.
    split; [now constructor|]. split.
    + intros Hn. simpl. rewrite (Hret Hn). cbn. apply Hok. now apply Hkeep, Hret.
    + destruct r as [price | err]; simpl; [| exact Hset].
      apply Hok. now apply Hkeep.
Qed.

End PriceFeedFacts.

(** X28. The price feed never hands out a price that is not above zero,
    neither fresh nor from its cache, and once some call has returned a
    price no later call throws: with all sources down it falls back on the
    last price it saw.  This holds for every run of calls from the initial
    empty cache, whatever the clock and the sources do. *)
Theorem price_feed_positive_and_settled :
  forall cs,
    Forall PriceFeed.positive (fst (PriceFeed.calls cs PriceFeed.initial))
    /\ PriceFeed.settled (fst (PriceFeed.calls cs PriceFeed.initial)) = true.
Proof.
  intros cs.
  destruct (@calls_sound cs PriceFeed.initial) as (H1 & _ & H3).
  - discriminate.
  - auto.
Qed.
